(** * ChattyAI backend: request handlers of [backend/main.py]

    A shallow embedding of the FastAPI handlers [chat] and
    [get_chat_messages] together with the fragment of Python they rely
    on (truthiness, string slicing, [isinstance], exceptions and
    [try]/[except]).  The Gemini clients, the Firestore client, the
    clock and the base64 decoder are external collaborators: they are
    fields of an environment record, and every call made to them is
    recorded in a trace. *)

From Stdlib Require Import ZArith NArith QArith_base List String Ascii Lia.
From Stdlib Require Import DecimalString DecimalPos DecimalZ.
From stdpp Require Import base option list gmap.

Local Open Scope Z_scope.
Set Warnings "-register-all".

(** ** Python strings, values and exceptions *)

Module Py.

(** A Python [str] is a sequence of code points. *)
Abbreviation str := (list N).
Abbreviation bytes := (list Byte.byte).

(** A literal of the source, read character by character. *)
Fixpoint lit (s : string) : str :=
  match s with
  | EmptyString => []
  | String a r => N_of_ascii a :: lit r
  end.

(** [len(s)], [s[:n]] and [a + b] are [length], [take] and [++]. *)
Definition len (s : str) : Z := Z.of_nat (length s).
Definition slice_to (n : nat) (s : str) : str := take n s.

(** [c in s] for a one-character [c]. *)
Definition contains_char (c : N) (s : str) : bool := existsb (N.eqb c) s.

(** [s.split(c)] for a one-character separator. *)
Fixpoint split_char (c : N) (s : str) : list str :=
  match s with
  | [] => [[]]
  | x :: r =>
      if N.eqb x c then [] :: split_char c r
      else match split_char c r with
           | [] => [[x]]
           | w :: ws => (x :: w) :: ws
           end
  end.

Definition comma : N := 44%N.

(** [str(n)] for an [int]. *)
Definition str_of_int (z : Z) : str := lit (NilZero.string_of_int (Z.to_int z)).

(** [int(x)] for a float [x]: truncation towards zero.  A finite float
    is a rational number. *)
Definition int_of_float (x : Q) : Z := Z.quot (Qnum x) (Zpos (Qden x)).

(** The values that travel through the handlers: JSON payloads,
    Firestore field values, and the two kinds of objects the source
    hands to [isinstance]. *)
Inductive pyval :=
| VNone
| VBool (b : bool)
| VInt (z : Z)
| VFloat (x : Q)
| VStr (s : str)
| VList (l : list pyval)
| VDict (d : list (str * pyval))
| VDatetime (t : Z)
| VSentinel (description : string)
| VType (name : string).

(** Truth value testing ([if v:], [not v], [bool(v)]). *)
Definition truthy (v : pyval) : bool :=
  match v with
  | VNone => false
  | VBool b => b
  | VInt z => negb (z =? 0)
  | VFloat x => negb (Qnum x =? 0)
  | VStr s => negb (Nat.eqb (length s) 0)
  | VList l => negb (Nat.eqb (length l) 0)
  | VDict d => negb (Nat.eqb (length d) 0)
  | VDatetime _ | VSentinel _ | VType _ => true
  end.

(** Truthiness of an [Optional[str]] field. *)
Definition truthy_opt (o : option str) : bool :=
  match o with
  | None => false
  | Some s => truthy (VStr s)
  end.

(** [v == "..."] against a string literal. *)
Definition eq_str (v : option pyval) (s : str) : bool :=
  match v with
  | Some (VStr s') => bool_decide (s' = s)
  | _ => false
  end.

Definition type_name (v : pyval) : string :=
  match v with
  | VNone => "NoneType"
  | VBool _ => "bool"
  | VInt _ => "int"
  | VFloat _ => "float"
  | VStr _ => "str"
  | VList _ => "list"
  | VDict _ => "dict"
  | VDatetime _ => "datetime"
  | VSentinel _ => "Sentinel"
  | VType _ => "type"
  end.

(** Exceptions.  [PyError cls msg] is any exception other than the
    framework's [HTTPException]; [msg] is what [str(e)] returns. *)
Inductive exn :=
| PyError (cls : string) (msg : str)
| HTTPException (status_code : Z) (detail : str).

Inductive result (A : Type) :=
| Ok (a : A)
| Raise (e : exn).
Arguments Ok {A} a.
Arguments Raise {A} e.

Definition attribute_error_none (attr : string) : exn :=
  PyError "AttributeError"
    (lit "'NoneType' object has no attribute '" ++ lit attr ++ lit "'").

Definition not_iterable_none : exn :=
  PyError "TypeError" (lit "'NoneType' object is not iterable").

(** [isinstance(obj, cls)]: the second argument has to be a type
    (subclasses are not needed here and not modelled); the message is
    that of CPython 3.10 and later. *)
Definition isinstance (obj cls : pyval) : result bool :=
  match cls with
  | VType t => Ok (String.eqb (type_name obj) t)
  | _ => Raise (PyError "TypeError"
           (lit "isinstance() arg 2 must be a type, a tuple of types, or a union"))
  end.

End Py.
Import Py.

(** ** External collaborators and the trace of calls *)

(** One turn handed to [start_chat(history=...)]:
    [{"role": role, "parts": [content]}]. *)
Record turn := { role : str; parts : list pyval }.

(** What a request does to the outside world, in order. *)
Inductive event :=
| Print (line : str)
| VisionGenerateContent (prompt : str) (mime_type : str) (data : bytes)
| ModelStartChat (history : list turn)
| ChatSendMessage (prompt : str)
| MessagesAdd (user_id chat_id : str) (doc : gmap str pyval)
| ChatSet (user_id chat_id : str) (doc : gmap str pyval) (merge : bool)
| MessagesStream (user_id chat_id : str) (order_by : str).

(** A computation: its outcome and the calls it made. *)
Definition M (A : Type) : Type := result A * list event.

Definition ret {A} (a : A) : M A := (Ok a, []).
Definition raise {A} (e : exn) : M A := (Raise e, []).

Definition bind {A B} (m : M A) (k : A -> M B) : M B :=
  match m with
  | (Ok a, t) => let (r, t') := k a in (r, t ++ t')
  | (Raise e, t) => (Raise e, t)
  end.

(** [try: m except Exception as e: h e]. *)
Definition try_except {A} (m : M A) (h : exn -> M A) : M A :=
  match m with
  | (Ok a, t) => (Ok a, t)
  | (Raise e, t) => let (r, t') := h e in (r, t ++ t')
  end.

(** An external call: the call is recorded, then its outcome is known. *)
Definition call {A} (ev : event) (outcome : result A) : M A := (outcome, [ev]).

(** A step that touches nothing outside but may raise. *)
Definition lift {A} (outcome : result A) : M A := (outcome, []).

Definition print (line : str) : M unit := (Ok tt, [Print line]).

Declare Scope py_scope.
Delimit Scope py_scope with py.
Notation "x <- m ;; k" := (bind m (fun x => k))
  (at level 100, m at next level, right associativity) : py_scope.
Notation "m ;; k" := (bind m (fun _ => k))
  (at level 100, right associativity) : py_scope.
Local Open Scope py_scope.

(** A [genai.GenerativeModel].  [generate_content prompt mime data] is
    the outcome of [generate_content([prompt, {"mime_type": mime,
    "data": data}]).text]; [start_chat history] yields a session, and a
    session maps a prompt to the outcome of [send_message(prompt).text]. *)
Record GenerativeModel := {
  generate_content : str -> str -> bytes -> result str;
  start_chat : list turn -> result (str -> result str)
}.

(** A document snapshot yielded by a query: [message.id] and
    [message.to_dict()]. *)
Record snapshot := { snap_id : str; to_dict : gmap str pyval }.

(** The Firestore client.  [chat_document u c] is the outcome of
    building the references [users/u/chats/c] and [.../messages];
    [messages_stream u c] is what
    [....collection("messages").order_by("timestamp").stream()] yields
    before it either ends or raises. *)
Record Firestore := {
  chat_document : str -> str -> result unit;
  messages_add : str -> str -> gmap str pyval -> result unit;
  chat_set : str -> str -> gmap str pyval -> bool -> result unit;
  messages_stream : str -> str -> list snapshot * option exn
}.

(** [firestore.SERVER_TIMESTAMP] is an instance of the SDK's [Sentinel]
    class (google.cloud.firestore_v1.transforms), not a class. *)
Definition SERVER_TIMESTAMP : pyval :=
  VSentinel "Value used to set a document field to the server timestamp.".

(** The module globals and library functions a request sees. *)
Record Env := {
  model : option GenerativeModel;
  vision_model : option GenerativeModel;
  db : option Firestore;
  (** [time.time()] *)
  time_time : Q;
  (** [base64.b64decode] *)
  b64decode : str -> result bytes;
  (** [str(e)] for an [HTTPException(status_code, detail)] *)
  http_exception_str : Z -> str -> str;
  (** [datetime.now()] and [datetime.isoformat] *)
  datetime_now : Z;
  isoformat : Z -> str
}.

Definition str_exn (env : Env) (e : exn) : str :=
  match e with
  | PyError _ msg => msg
  | HTTPException c d => http_exception_str env c d
  end.

(** ** Request and response models *)

Record ChatRequest := {
  prompt : str;
  user_id : str;
  chat_id : option str;
  screenshot : option str;
  chat_history : option (list (gmap str pyval))
}.

Record ChatResponse := { response : str; response_chat_id : str }.

(** ** POST /chat *)

Definition is_none {A} (o : option A) : bool :=
  match o with None => true | Some _ => false end.

(** The error of the availability check, line 93. *)
Definition models_not_initialized : exn :=
  HTTPException 500 (lit "AI models not initialized").

(** [request.chat_id if request.chat_id else f"chat_{int(time.time())}"]. *)
Definition new_chat_id (now : Q) : str :=
  lit "chat_" ++ str_of_int (int_of_float now).

Definition resolve_chat_id (env : Env) (request : ChatRequest) : str :=
  match chat_id request with
  | Some c => if truthy (VStr c) then c else new_chat_id (time_time env)
  | None => new_chat_id (time_time env)
  end.

(** One pass of the loop of lines 101-103. *)
Definition history_turn (msg : gmap str pyval) : turn :=
  {| role := if eq_str (msg !! lit "role") (lit "user")
             then lit "user" else lit "model";
     parts := [default (VStr (lit "")) (msg !! lit "content")] |}.

(** The loop itself; iterating over [None] raises. *)
Definition build_history (h : option (list (gmap str pyval))) : M (list turn) :=
  match h with
  | None => raise not_iterable_none
  | Some msgs => ret (map history_turn msgs)
  end.

(** [request.screenshot.split(",")[1] if "," in request.screenshot
     else request.screenshot]. *)
Definition screenshot_payload (s : str) : result str :=
  if contains_char comma s then
    match split_char comma s !! 1%nat with
    | Some p => Ok p
    | None => Raise (PyError "IndexError" (lit "list index out of range"))
    end
  else Ok s.

(** Lines 109-119: the vision branch with its own handler. *)
Definition vision_branch (env : Env) (request : ChatRequest) (s : str) : M str :=
  try_except
    (payload <- lift (screenshot_payload s) ;;
     image_data <- lift (b64decode env payload) ;;
     match vision_model env with
     | None => raise (attribute_error_none "generate_content")
     | Some vm =>
         call (VisionGenerateContent (prompt request) (lit "image/jpeg") image_data)
              (generate_content vm (prompt request) (lit "image/jpeg") image_data)
     end)
    (fun e =>
       print (lit "Vision model error: " ++ str_exn env e) ;;
       raise (HTTPException 500 (lit "Vision model error: " ++ str_exn env e))).

(** Lines 122-124: the text branch. *)
Definition text_branch (env : Env) (request : ChatRequest) (history : list turn) : M str :=
  match model env with
  | None => raise (attribute_error_none "start_chat")
  | Some m =>
      session <- call (ModelStartChat history) (start_chat m history) ;;
      call (ChatSendMessage (prompt request)) (session (prompt request))
  end.

(** Lines 108-124. *)
Definition generate (env : Env) (request : ChatRequest) (history : list turn) : M str :=
  match screenshot request with
  | Some s => if truthy (VStr s) then vision_branch env request s
              else text_branch env request history
  | None => text_branch env request history
  end.

(** [s[:n] + "..." if len(s) > n else s]. *)
Definition truncate (n : nat) (s : str) : str :=
  if len s >? Z.of_nat n then slice_to n s ++ lit "..." else s.

Definition user_message (request : ChatRequest) : gmap str pyval :=
  <[lit "content" := VStr (prompt request)]>
  (<[lit "role" := VStr (lit "user")]>
  (<[lit "timestamp" := SERVER_TIMESTAMP]>
  (<[lit "has_image" := VBool (truthy_opt (screenshot request))]> ∅))).

Definition assistant_message (ai_response : str) : gmap str pyval :=
  <[lit "content" := VStr ai_response]>
  (<[lit "role" := VStr (lit "assistant")]>
  (<[lit "timestamp" := SERVER_TIMESTAMP]>
  (<[lit "has_image" := VBool false]> ∅))).

Definition chat_metadata (request : ChatRequest) (ai_response : str) : gmap str pyval :=
  <[lit "updated_at" := SERVER_TIMESTAMP]>
  (<[lit "title" := VStr (truncate 50 (prompt request))]>
  (<[lit "last_message" := VStr (truncate 100 ai_response)]> ∅)).

(** Lines 130-156: the writes of one exchange, in program order. *)
Definition store_writes (fs : Firestore) (request : ChatRequest)
    (cid ai_response : str) : M unit :=
  let uid := user_id request in
  lift (chat_document fs uid cid) ;;
  call (MessagesAdd uid cid (user_message request))
       (messages_add fs uid cid (user_message request)) ;;
  call (MessagesAdd uid cid (assistant_message ai_response))
       (messages_add fs uid cid (assistant_message ai_response)) ;;
  call (ChatSet uid cid (chat_metadata request ai_response) true)
       (chat_set fs uid cid (chat_metadata request ai_response) true).

(** Lines 127-159: best-effort storage. *)
Definition store_exchange (env : Env) (request : ChatRequest)
    (cid ai_response : str) : M unit :=
  match db env with
  | None => ret tt
  | Some fs =>
      try_except (store_writes fs request cid ai_response)
        (fun e => print (lit "Firebase storage error: " ++ str_exn env e))
  end.

(** The body of the outer [try], lines 96-161. *)
Definition chat_body (env : Env) (request : ChatRequest) : M ChatResponse :=
  let cid := resolve_chat_id env request in
  history <- build_history (chat_history request) ;;
  ai_response <- generate env request history ;;
  store_exchange env request cid ai_response ;;
  ret {| response := ai_response; response_chat_id := cid |}.

(** The handler, lines 91-164. *)
Definition chat (env : Env) (request : ChatRequest) : M ChatResponse :=
  if is_none (model env) && is_none (vision_model env)
  then raise models_not_initialized
  else
    try_except (chat_body env request)
      (fun e => raise (HTTPException 500 (lit "An error occurred: " ++ str_exn env e))).

(** ** GET /chats/{user_id}/{chat_id} *)

Definition database_not_initialized : exn :=
  HTTPException 500 (lit "Database not initialized").

(** [ts.isoformat()]: only a datetime has the method. *)
Definition call_isoformat (env : Env) (ts : pyval) : result str :=
  match ts with
  | VDatetime t => Ok (isoformat env t)
  | _ => Raise (PyError "AttributeError"
           (lit "'" ++ lit (type_name ts) ++ lit "' object has no attribute 'isoformat'"))
  end.

(** Lines 202-207: format the timestamp of one message. *)
Definition format_timestamp (env : Env) (message_data : gmap str pyval)
  : M (gmap str pyval) :=
  match message_data !! lit "timestamp" with
  | Some ts =>
      if truthy ts then
        pending <- lift (isinstance ts SERVER_TIMESTAMP) ;;
        if (pending : bool)
        then ret (<[lit "timestamp" := VStr (isoformat env (datetime_now env))]> message_data)
        else
          iso <- lift (call_isoformat env ts) ;;
          ret (<[lit "timestamp" := VStr iso]> message_data)
      else ret message_data
  | None => ret message_data
  end.

(** Lines 198-207: one pass of the loop. *)
Definition message_entry (env : Env) (message : snapshot) : M (gmap str pyval) :=
  format_timestamp env (<[lit "id" := VStr (snap_id message)]> (to_dict message)).

(** Lines 196-209: the loop over the snapshots the query yields. *)
Fixpoint collect_messages (env : Env) (messages : list snapshot)
    (message_list : list (gmap str pyval)) : M (list (gmap str pyval)) :=
  match messages with
  | [] => ret message_list
  | message :: rest =>
      message_data <- message_entry env message ;;
      collect_messages env rest (message_list ++ [message_data])
  end.

(** The handler, lines 187-213; the result is the value of the
    ["messages"] key of the response. *)
Definition get_chat_messages (env : Env) (uid cid : str)
  : M (list (gmap str pyval)) :=
  match db env with
  | None => raise database_not_initialized
  | Some fs =>
      try_except
        (call (MessagesStream uid cid (lit "timestamp")) (Ok tt) ;;
         message_list <- collect_messages env (fst (messages_stream fs uid cid)) [] ;;
         match snd (messages_stream fs uid cid) with
         | Some e => raise e
         | None => ret message_list
         end)
        (fun e => raise (HTTPException 500 (lit "An error occurred: " ++ str_exn env e)))
  end.

(** ** Start-up, lines 54-63

    Both Gemini handles are built inside one [try]; the handler of that
    [try] resets both. *)
Definition init_gemini (configure : result unit)
    (make : string -> result GenerativeModel)
  : option GenerativeModel * option GenerativeModel :=
  match configure with
  | Raise _ => (None, None)
  | Ok _ =>
      match make "gemini-pro"%string with
      | Raise _ => (None, None)
      | Ok m =>
          match make "gemini-pro-vision"%string with
          | Raise _ => (None, None)
          | Ok v => (Some m, Some v)
          end
      end
  end.

(** ** GET /chats/{user_id} *)

(** Lines 178-179: [chat_data = chat.to_dict(); chat_data["id"] = chat.id]. *)
Definition chat_entry (chat : snapshot) : gmap str pyval :=
  <[lit "id" := VStr (snap_id chat)]> (to_dict chat).

(** Lines 176-180: the loop over the snapshots the query yields. *)
Fixpoint collect_chats (chats : list snapshot)
    (chat_list : list (gmap str pyval)) : list (gmap str pyval) :=
  match chats with
  | [] => chat_list
  | chat :: rest => collect_chats rest (chat_list ++ [chat_entry chat])
  end.

(** The handler, lines 167-184; the result is the value of the ["chats"]
    key of the response.  [chats_stream u] is what
    [users/u/chats.order_by("updated_at", DESCENDING).stream()] yields
    before it either ends or raises; that query is the only call the
    handler makes, so its outcome is all there is to observe. *)
Definition get_chats (env : Env)
    (chats_stream : str -> list snapshot * option exn) (uid : str)
  : result (list (gmap str pyval)) :=
  match db env with
  | None => Raise database_not_initialized
  | Some _ =>
      match snd (chats_stream uid) with
      | Some e => Raise (HTTPException 500 (lit "An error occurred: " ++ str_exn env e))
      | None => Ok (collect_chats (fst (chats_stream uid)) [])
      end
  end.

(** ** Start-up, lines 31-43: the service-account bundle *)

Definition backslash : N := 92%N.
Definition letter_n : N := 110%N.
Definition newline : N := 10%N.

(** [s.replace('\\n', '\n')]: every backslash followed by [n], found
    from left to right, becomes one newline. *)
Fixpoint unescape_newlines (s : str) : str :=
  match s with
  | [] => []
  | x :: r =>
      match r with
      | y :: r' =>
          if N.eqb x backslash && N.eqb y letter_n
          then newline :: unescape_newlines r'
          else x :: unescape_newlines r
      | [] => [x]
      end
  end.

(** [os.environ.get(name)] and [os.environ.get(name, "")]. *)
Definition environ_get (environ : gmap str str) (name : string) : pyval :=
  match environ !! lit name with
  | Some v => VStr v
  | None => VNone
  end.

Definition environ_get_str (environ : gmap str str) (name : string) : str :=
  default (lit "") (environ !! lit name).

(** Lines 32-43: [firebase_credentials]. *)
Definition firebase_credentials (environ : gmap str str) : gmap str pyval :=
  <[lit "type" := VStr (lit "service_account")]>
  (<[lit "project_id" := environ_get environ "FIREBASE_PROJECT_ID"]>
  (<[lit "private_key_id" := VStr (environ_get_str environ "FIREBASE_PRIVATE_KEY_ID")]>
  (<[lit "private_key" :=
       VStr (unescape_newlines (environ_get_str environ "FIREBASE_PRIVATE_KEY"))]>
  (<[lit "client_email" := VStr (environ_get_str environ "FIREBASE_CLIENT_EMAIL")]>
  (<[lit "client_id" := VStr (environ_get_str environ "FIREBASE_CLIENT_ID")]>
  (<[lit "auth_uri" := VStr (lit "https://accounts.google.com/o/oauth2/auth")]>
  (<[lit "token_uri" := VStr (lit "https://oauth2.googleapis.com/token")]>
  (<[lit "auth_provider_x509_cert_url" :=
       VStr (lit "https://www.googleapis.com/oauth2/v1/certs")]>
  (<[lit "client_x509_cert_url" :=
       VStr (environ_get_str environ "FIREBASE_CLIENT_CERT_URL")]> ∅))))))))).

(** ** The decoder of the standard library

    [base64.b64decode(s)] as line 111 calls it, without [validate]: the
    text is encoded to ASCII and handed to [binascii.a2b_base64] in its
    lenient mode (CPython, Modules/binascii.c). *)

Definition pad_char : N := 61%N.

(** [table_a2b_base64]: the value of a character of the alphabet. *)
Definition b64_digit (c : N) : option N :=
  if (N.leb 65 c && N.leb c 90)%bool then Some (c - 65)%N
  else if (N.leb 97 c && N.leb c 122)%bool then Some (c - 97 + 26)%N
  else if (N.leb 48 c && N.leb c 57)%bool then Some (c - 48 + 52)%N
  else if N.eqb c 43 then Some 62%N
  else if N.eqb c 47 then Some 63%N
  else None.

(** A value stored through an [unsigned char]. *)
Definition byte_of_N (n : N) : Byte.byte :=
  default Byte.x00 (Byte.of_N (N.modulo n 256)).

(** The end of the input: a quad that was left open is an error. *)
Definition a2b_finish (quad_pos : nat) (out : bytes) : result bytes :=
  match quad_pos with
  | 0%nat => Ok out
  | 1%nat =>
      Raise (PyError "binascii.Error"
        (lit "Invalid base64-encoded string: number of data characters ("
         ++ str_of_int (Z.of_nat (length out / 3 * 4 + 1))
         ++ lit ") cannot be 1 more than a multiple of 4"))
  | _ => Raise (PyError "binascii.Error" (lit "Incorrect padding"))
  end.

(** The loop over the characters.  A pad character ends the decoding
    once it completes a quad that holds at least two digits; any other
    pad character, and every character outside the alphabet, is
    skipped. *)
Fixpoint a2b_loop (s : str) (quad_pos : nat) (leftchar : N) (pads : nat)
    (out : bytes) : result bytes :=
  match s with
  | [] => a2b_finish quad_pos out
  | c :: r =>
      if N.eqb c pad_char then
        if Nat.leb 2 quad_pos then
          if Nat.leb 4 (quad_pos + (pads + 1)) then Ok out
          else a2b_loop r quad_pos leftchar (pads + 1) out
        else a2b_loop r quad_pos leftchar pads out
      else
        match b64_digit c with
        | None => a2b_loop r quad_pos leftchar pads out
        | Some d =>
            match quad_pos with
            | 0%nat => a2b_loop r 1 d 0 out
            | 1%nat =>
                a2b_loop r 2 (N.land d 15) 0
                  (out ++ [byte_of_N (N.lor (N.shiftl leftchar 2) (N.shiftr d 4))])
            | 2%nat =>
                a2b_loop r 3 (N.land d 3) 0
                  (out ++ [byte_of_N (N.lor (N.shiftl leftchar 4) (N.shiftr d 2))])
            | _ =>
                a2b_loop r 0 0 0
                  (out ++ [byte_of_N (N.lor (N.shiftl leftchar 6) d)])
            end
        end
  end.

Definition py_b64decode (s : str) : result bytes :=
  if forallb (fun c => N.ltb c 128) s then a2b_loop s 0 0 0 []
  else Raise (PyError "ValueError"
         (lit "string argument should contain only ASCII characters")).

(** ** Sample collaborators

    Concrete clients and requests on which the handlers are evaluated. *)

Module Sample.

(** A Gemini handle that answers every call. *)
Definition gemini : GenerativeModel :=
  {| generate_content := fun _ _ _ => Ok (lit "A cat on a sofa.");
     start_chat := fun _ => Ok (fun _ => Ok (lit "Hello! How can I help?")) |}.

(** Starlette's [HTTPException.__str__]: [f"{status_code}: {detail}"]. *)
Definition starlette_str (status_code : Z) (detail : str) : str :=
  str_of_int status_code ++ lit ": " ++ detail.

(** [base64.b64decode] on the two payloads used below: ["aGk="] is the
    encoding of [b"hi"]; ["abc"] lacks its padding and is rejected with
    [binascii.Error("Incorrect padding")]. *)
Definition decode (s : str) : result bytes :=
  if bool_decide (s = lit "aGk=") then Ok [Byte.x68; Byte.x69]
  else Raise (PyError "binascii.Error" (lit "Incorrect padding")).

(** A store whose writes succeed, holding one chat with two messages. *)
Definition committed (id : string) (who text : string) (t : Z) : snapshot :=
  {| snap_id := lit id;
     to_dict := <[lit "content" := VStr (lit text)]>
               (<[lit "role" := VStr (lit who)]>
               (<[lit "timestamp" := VDatetime t]>
               (<[lit "has_image" := VBool false]> ∅))) |}.

Definition store : Firestore :=
  {| chat_document := fun _ _ => Ok tt;
     messages_add := fun _ _ _ => Ok tt;
     chat_set := fun _ _ _ _ => Ok tt;
     messages_stream := fun _ _ =>
       ([committed "m1" "user" "Hi" 1700000000;
         committed "m2" "assistant" "Hello!" 1700000001], None) |}.

(** A store that is reachable but refuses every write. *)
Definition broken_store : Firestore :=
  {| chat_document := fun _ _ => Ok tt;
     messages_add := fun _ _ _ =>
       Raise (PyError "ServiceUnavailable" (lit "503 Deadline Exceeded"));
     chat_set := fun _ _ _ _ =>
       Raise (PyError "ServiceUnavailable" (lit "503 Deadline Exceeded"));
     messages_stream := fun _ _ => ([], None) |}.

Definition env (m v : option GenerativeModel) (d : option Firestore) (now : Q) : Env :=
  {| model := m; vision_model := v; db := d;
     time_time := now;
     b64decode := decode;
     http_exception_str := starlette_str;
     datetime_now := 1700000100;
     (* a stand-in rendering: the handlers only pass the text on *)
     isoformat := fun t => lit "T" ++ str_of_int t |}.

Definition up : Env := env (Some gemini) (Some gemini) (Some store) (Qmake 1700000000 1).
Definition down : Env := env None None (Some store) (Qmake 1700000000 1).

Definition hi : ChatRequest :=
  {| prompt := lit "Hi"; user_id := lit "u1"; chat_id := None;
     screenshot := None; chat_history := Some [] |}.

Definition with_history : ChatRequest :=
  {| prompt := lit "And then?"; user_id := lit "u1"; chat_id := Some (lit "c1");
     screenshot := None;
     chat_history := Some
       [ <[lit "role" := VStr (lit "user")]> (<[lit "content" := VStr (lit "Hi")]> ∅);
         <[lit "role" := VStr (lit "assistant")]> (<[lit "content" := VStr (lit "Hello")]> ∅);
         <[lit "role" := VStr (lit "system")]> (<[lit "content" := VStr (lit "Be brief")]> ∅) ] |}.

Definition with_image (shot : string) : ChatRequest :=
  {| prompt := lit "What is this?"; user_id := lit "u1"; chat_id := Some (lit "c1");
     screenshot := Some (lit shot);
     chat_history := Some
       [ <[lit "role" := VStr (lit "user")]> (<[lit "content" := VStr (lit "Hi")]> ∅) ] |}.

(** The spec's example ["Hi" * 60] for chat [c1]. *)
Definition long : ChatRequest :=
  {| prompt := concat (replicate 60 (lit "Hi")); user_id := lit "u1";
     chat_id := Some (lit "c1"); screenshot := None; chat_history := Some [] |}.

End Sample.

(** More sample data: chats of a user, messages without a timestamp, an
    environment file. *)
Module Demo.

Definition chat_doc (id title : string) (t : Z) : snapshot :=
  {| snap_id := lit id;
     to_dict := <[lit "title" := VStr (lit title)]>
               (<[lit "last_message" := VStr (lit "ok")]>
               (<[lit "updated_at" := VDatetime t]> ∅)) |}.

(** Two chats, the most recently updated first; the second one stores
    a field named [id] of its own. *)
Definition chats_stream (uid : str) : list snapshot * option exn :=
  ([ chat_doc "c2" "Trip" 1700000500;
     {| snap_id := lit "c1";
        to_dict := <[lit "id" := VStr (lit "legacy")]> (to_dict (chat_doc "c1" "Hi" 1700000000)) |} ],
   None).

(** A store whose chat holds two messages that were written without a
    [timestamp] value. *)
Definition undated (id who text : string) : snapshot :=
  {| snap_id := lit id;
     to_dict := <[lit "content" := VStr (lit text)]>
               (<[lit "role" := VStr (lit who)]>
               (<[lit "timestamp" := VNone]> ∅)) |}.

Definition undated_store : Firestore :=
  {| chat_document := fun _ _ => Ok tt;
     messages_add := fun _ _ _ => Ok tt;
     chat_set := fun _ _ _ _ => Ok tt;
     messages_stream := fun _ _ =>
       ([undated "m1" "user" "Hi"; undated "m2" "assistant" "Hello!"], None) |}.

Definition undated_env : Env :=
  Sample.env (Some Sample.gemini) (Some Sample.gemini) (Some undated_store)
    (Qmake 1700000000 1).

(** A Gemini handle whose every call is refused. *)
Definition busy : GenerativeModel :=
  {| generate_content := fun _ _ _ =>
       Raise (PyError "ResourceExhausted" (lit "429 Quota exceeded"));
     start_chat := fun _ =>
       Raise (PyError "ResourceExhausted" (lit "429 Quota exceeded")) |}.

Definition busy_env : Env :=
  Sample.env (Some busy) (Some busy) (Some Sample.store) (Qmake 1700000000 1).

(** A two-line key. *)
Definition pem : str :=
  lit "-----BEGIN-----" ++ [newline] ++ lit "MIIB" ++ [newline] ++ lit "-----END-----".

End Demo.

(** An environment whose decoder is that of the standard library. *)
Module Lenient.

Definition env : Env :=
  {| model := Some Sample.gemini; vision_model := Some Sample.gemini;
     db := Some Sample.store;
     time_time := Qmake 1700000000 1;
     b64decode := py_b64decode;
     http_exception_str := Sample.starlette_str;
     datetime_now := 1700000100;
     isoformat := fun t => lit "T" ++ str_of_int t |}.

Definition with_image (shot : string) (history : option (list (gmap str pyval)))
  : ChatRequest :=
  {| prompt := lit "What is this?"; user_id := lit "u1"; chat_id := Some (lit "c1");
     screenshot := Some (lit shot); chat_history := history |}.

End Lenient.

(** ** What a caller and an observer see *)

(** The status line of the reply: a returned model is a 200, an
    [HTTPException] carries its own code, anything else that escapes a
    handler is answered with a 500 by the framework. *)
Definition http_status {A} (r : result A) : Z :=
  match r with
  | Ok _ => 200
  | Raise (HTTPException c _) => c
  | Raise (PyError _ _) => 500
  end.

Definition client_error (status : Z) : bool := (400 <=? status) && (status <? 500).
Definition server_error (status : Z) : bool := (500 <=? status) && (status <? 600).

Definition provider_call (ev : event) : bool :=
  match ev with
  | VisionGenerateContent _ _ _ | ModelStartChat _ | ChatSendMessage _ => true
  | _ => false
  end.

Definition store_call (ev : event) : bool :=
  match ev with
  | MessagesAdd _ _ _ | ChatSet _ _ _ _ => true
  | _ => false
  end.

Definition includes (m s : str) : Prop := exists a b, s = a ++ m ++ b.

(** The three writes of an exchange, as the source orders them. *)
Definition exchange_writes (request : ChatRequest) (cid ai_response : str) : list event :=
  [ MessagesAdd (user_id request) cid (user_message request);
    MessagesAdd (user_id request) cid (assistant_message ai_response);
    ChatSet (user_id request) cid (chat_metadata request ai_response) true ].

Definition set_history (request : ChatRequest)
    (h : option (list (gmap str pyval))) : ChatRequest :=
  {| prompt := prompt request; user_id := user_id request;
     chat_id := chat_id request; screenshot := screenshot request;
     chat_history := h |}.

Definition set_clock (env : Env) (now : Q) : Env :=
  {| model := model env; vision_model := vision_model env; db := db env;
     time_time := now; b64decode := b64decode env;
     http_exception_str := http_exception_str env;
     datetime_now := datetime_now env; isoformat := isoformat env |}.

(** The exception the outer handler of [chat] raises for [e]. *)
Definition catch_all (env : Env) (e : exn) : exn :=
  HTTPException 500 (lit "An error occurred: " ++ str_exn env e).

(** What the handler of the vision branch raises for [e], after its log line. *)
Definition vision_failure (env : Env) (e : exn) : exn :=
  HTTPException 500 (lit "Vision model error: " ++ str_exn env e).

Definition vision_failed (env : Env) (e : exn) (t : list event) : M str :=
  (Raise (vision_failure env e),
   t ++ [Print (lit "Vision model error: " ++ str_exn env e)]).

(** The text after the first comma, when there is a comma. *)
Fixpoint after_comma (s : str) : option str :=
  match s with
  | [] => None
  | x :: r => if N.eqb x comma then Some r else after_comma r
  end.

(** The text before the first comma (all of it when there is none). *)
Fixpoint before_comma (s : str) : str :=
  match s with
  | [] => []
  | x :: r => if N.eqb x comma then [] else x :: before_comma r
  end.

(** [message_data.get("timestamp")] is truthy. *)
Definition has_timestamp (message : snapshot) : bool :=
  match to_dict message !! lit "timestamp" with
  | Some ts => truthy ts
  | None => false
  end.

(** The exception of [isinstance(ts, firestore.SERVER_TIMESTAMP)]. *)
Definition isinstance_error : exn :=
  PyError "TypeError"
    (lit "isinstance() arg 2 must be a type, a tuple of types, or a union").

(** A backslash followed by [n] occurs in [s]. *)
Fixpoint has_escape (s : str) : bool :=
  match s with
  | [] => false
  | x :: r =>
      match r with
      | y :: _ => (N.eqb x backslash && N.eqb y letter_n) || has_escape r
      | [] => false
      end
  end.

(** How a multi-line value is written on one line of an environment
    file: every newline becomes a backslash followed by [n]. *)
Fixpoint escape_newlines (s : str) : str :=
  match s with
  | [] => []
  | x :: r =>
      if N.eqb x newline then backslash :: letter_n :: escape_newlines r
      else x :: escape_newlines r
  end.

(** A listing is ordered newest first on [updated_at]. *)
Definition newest_first (l : list (gmap str pyval)) : Prop :=
  forall i j a b ta tb,
    (i <= j)%nat -> l !! i = Some a -> l !! j = Some b ->
    a !! lit "updated_at" = Some (VDatetime ta) ->
    b !! lit "updated_at" = Some (VDatetime tb) ->
    tb <= ta.

(** Two history entries agree on what the handler reads of them. *)
Definition same_turn (a b : gmap str pyval) : Prop :=
  a !! lit "role" = b !! lit "role" /\ a !! lit "content" = b !! lit "content".

(** Base64 as RFC 4648 writes it: groups of four characters of the
    alphabet, the last group ending in at most two pad characters. *)
Definition is_b64_digit (c : N) : bool :=
  match b64_digit c with Some _ => true | None => false end.

Definition strip_padding (s : str) : str :=
  match reverse s with
  | p :: q :: r =>
      if N.eqb p pad_char then
        if N.eqb q pad_char then reverse r else reverse (q :: r)
      else s
  | [p] => if N.eqb p pad_char then [] else s
  | [] => s
  end.

Definition is_base64 (s : str) : bool :=
  Nat.eqb (length s mod 4) 0 && forallb is_b64_digit (strip_padding s).

(** What the lenient decoder looks at: digits and pad characters. *)
Definition b64_relevant (c : N) : bool := N.eqb c pad_char || is_b64_digit c.

(** ** Basic facts about computations *)

Section Computations.
Context {A B C : Type}.

Lemma bind_ret_l (a : A) (k : A -> M B) : bind (ret a) k = k a.
Proof. unfold bind, ret. now destruct (k a). Qed.

Lemma bind_ret_r (m : M A) : bind m ret = m.
Proof. destruct m as [[a | e] t]; cbn; [now rewrite app_nil_r | reflexivity]. Qed.

Lemma bind_assoc (m : M A) (k : A -> M B) (h : B -> M C) :
  bind (bind m k) h = bind m (fun a => bind (k a) h).
Proof.
  destruct m as [[a | e] t]; cbn; [| reflexivity].
  destruct (k a) as [[b | e] t']; cbn; [| reflexivity].
  destruct (h b) as [r t'']. now rewrite app_assoc.
Qed.

Lemma bind_raise (e : exn) (k : A -> M B) : bind (raise e) k = raise e.
Proof. reflexivity. Qed.

Lemma try_except_ret (a : A) (h : exn -> M A) : try_except (ret a) h = ret a.
Proof. reflexivity. Qed.

Lemma try_except_raise (e : exn) (h : exn -> M A) : try_except (raise e) h = h e.
Proof. unfold try_except, raise. now destruct (h e). Qed.

End Computations.

Lemma lit_inj (a b : string) : lit a = lit b -> a = b.
Proof.
  revert b. induction a as [|c a IH]; intros [|d b] H; simpl in H;
    try discriminate; [reflexivity |].
  injection H as Hc Hr. f_equal; [| now apply IH].
  rewrite <- (ascii_N_embedding c), <- (ascii_N_embedding d). now rewrite Hc.
Qed.

Lemma str_of_int_inj (a b : Z) : str_of_int a = str_of_int b -> a = b.
Proof.
  unfold str_of_int. intros H. apply lit_inj in H.
  assert (Hd : Z.to_int a = Z.to_int b).
  { assert (Hs : forall d, NilZero.int_of_string (NilZero.string_of_int (Z.to_int d))
                           = Some (Z.to_int d)).
    { intros d. apply NilZero.isi; destruct d; simpl; try discriminate;
        intros Hn; injection Hn; apply DecimalPos.Unsigned.to_uint_nonnil. }
    pose proof (Hs a) as Ha. rewrite H, Hs in Ha. now injection Ha. }
  now apply DecimalZ.to_int_inj.
Qed.

(** ** The shape of a [/chat] run *)

Lemma chat_rejected env request :
  model env = None -> vision_model env = None ->
  chat env request = (Raise models_not_initialized, []).
Proof. intros Hm Hv. unfold chat. now rewrite Hm, Hv. Qed.

Lemma chat_checked env request :
  model env <> None \/ vision_model env <> None ->
  chat env request =
    match chat_body env request with
    | (Ok r, t) => (Ok r, t)
    | (Raise e, t) => (Raise (catch_all env e), t)
    end.
Proof.
  intros H. unfold chat.
  assert (Hc : is_none (model env) && is_none (vision_model env) = false).
  { destruct (model env), (vision_model env); simpl; try reflexivity.
    destruct H as [H | H]; now elim H. }
  rewrite Hc. unfold try_except, raise, catch_all.
  destruct (chat_body env request) as [[r | e] t]; [reflexivity |].
  now rewrite app_nil_r.
Qed.

Lemma handles_cases env :
  (model env = None /\ vision_model env = None)
  \/ (model env <> None \/ vision_model env <> None).
Proof.
  destruct (model env); [right; left; discriminate |].
  destruct (vision_model env); [right; right; discriminate | now left].
Qed.

(** Storage never raises into the handler. *)
Lemma store_exchange_ok env request cid ai :
  fst (store_exchange env request cid ai) = Ok tt.
Proof.
  unfold store_exchange. destruct (db env) as [fs |]; [| reflexivity].
  unfold try_except, print.
  destruct (store_writes fs request cid ai) as [[[] | e] t]; reflexivity.
Qed.

Lemma store_exchange_unset env request cid ai :
  db env = None -> store_exchange env request cid ai = (Ok tt, []).
Proof. intros H. unfold store_exchange. now rewrite H. Qed.

Lemma store_exchange_failed env fs request cid ai e t :
  db env = Some fs ->
  store_writes fs request cid ai = (Raise e, t) ->
  store_exchange env request cid ai =
    (Ok tt, t ++ [Print (lit "Firebase storage error: " ++ str_exn env e)]).
Proof.
  intros Hdb Hw. unfold store_exchange. rewrite Hdb.
  unfold try_except, print. now rewrite Hw.
Qed.

(** A run of the body once the history is a list. *)
Lemma chat_body_run env request msgs :
  chat_history request = Some msgs ->
  chat_body env request =
    match generate env request (map history_turn msgs) with
    | (Ok ai, t) =>
        (Ok {| response := ai; response_chat_id := resolve_chat_id env request |},
         t ++ snd (store_exchange env request (resolve_chat_id env request) ai))
    | (Raise e, t) => (Raise e, t)
    end.
Proof.
  intros Hh. unfold chat_body, build_history. rewrite Hh.
  unfold bind at 1. unfold ret at 1.
  destruct (generate env request (map history_turn msgs)) as [[ai | e] t] eqn:Hg;
    simpl; [| reflexivity].
  pose proof (store_exchange_ok env request (resolve_chat_id env request) ai) as Hs.
  destruct (store_exchange env request (resolve_chat_id env request) ai) as [r ts].
  simpl in Hs. subst r. simpl. now rewrite app_nil_r.
Qed.

Lemma chat_body_null_history env request :
  chat_history request = None ->
  chat_body env request = (Raise not_iterable_none, []).
Proof. intros Hh. unfold chat_body, build_history. now rewrite Hh. Qed.

(** A successful generation used a handle that exists. *)
Lemma generate_ok_has_model env request history ai t :
  generate env request history = (Ok ai, t) ->
  model env <> None \/ vision_model env <> None.
Proof.
  unfold generate, vision_branch, text_branch, try_except, bind, lift, raise, print.
  intros H.
  destruct (model env), (vision_model env); try (left; discriminate);
    try (right; discriminate).
  exfalso.
  destruct (screenshot request) as [s |]; [destruct (truthy (VStr s)) |];
    try discriminate.
  destruct (screenshot_payload s); [| discriminate].
  simpl in H. destruct (b64decode env a); discriminate.
Qed.

Lemma catch_all_detail_differs env e status :
  catch_all env e <> HTTPException status (lit "AI models not initialized").
Proof. unfold catch_all. simpl. intros H. discriminate H. Qed.

(** Past the availability check no reply carries its detail. *)
Lemma chat_checked_not_rejected env request status :
  model env <> None \/ vision_model env <> None ->
  fst (chat env request)
    <> Raise (HTTPException status (lit "AI models not initialized")).
Proof.
  intros H. rewrite (chat_checked env request H).
  destruct (chat_body env request) as [[r | e] t]; cbn [fst]; [discriminate |].
  intros Heq. apply (catch_all_detail_differs env e status). congruence.
Qed.

(** ** Availability check *)

(** C8 (as amended).  With both Gemini handles unset the handler raises
    [HTTPException(500, "AI models not initialized")] before anything
    else happens: the status is a server error, and the trace is empty,
    so no provider and no store was called.  With at least one handle
    set, no reply carries that detail. *)
Theorem chat_availability_check env request :
  (model env = None /\ vision_model env = None ->
     chat env request = (Raise (HTTPException 500 (lit "AI models not initialized")), [])
     /\ server_error (http_status (fst (chat env request))) = true)
  /\ (model env <> None \/ vision_model env <> None ->
     forall status,
       fst (chat env request) <> Raise (HTTPException status (lit "AI models not initialized"))).
Proof.
  split.
  - intros [Hm Hv]. rewrite (chat_rejected env request Hm Hv). now split.
  - intros H status. now apply chat_checked_not_rejected.
Qed.

Lemma chat_availability_check_witness :
  (chat Sample.down Sample.hi
     = (Raise (HTTPException 500 (lit "AI models not initialized")), [])
   /\ server_error (http_status (fst (chat Sample.down Sample.hi))) = true)
  /\ (forall status,
       fst (chat Sample.up Sample.hi)
         <> Raise (HTTPException status (lit "AI models not initialized"))).
Proof.
  split.
  - apply (proj1 (chat_availability_check Sample.down Sample.hi)).
    split; reflexivity.
  - apply (proj2 (chat_availability_check Sample.up Sample.hi)).
    left. discriminate.
Defined.

(** C8 (as stated) fails: the rejection is a 500, which is not a
    client error. *)
Lemma chat_unavailable_is_not_client_error :
  model Sample.down = None /\ vision_model Sample.down = None
  /\ fst (chat Sample.down Sample.hi)
       = Raise (HTTPException 500 (lit "AI models not initialized"))
  /\ http_status (fst (chat Sample.down Sample.hi)) = 500
  /\ client_error (http_status (fst (chat Sample.down Sample.hi))) = false.
Proof. repeat split. Qed.

(** ** Best-effort storage *)

(** C1.  Once the AI call has produced [ai], the reply is a 200 that
    carries [ai] and the chat id, whatever the store does: with no store
    client nothing more happens, and when a write raises [e] the run
    ends with the log line ["Firebase storage error: " + str(e)] and
    the same reply. *)
Theorem chat_storage_is_best_effort env request msgs ai t :
  chat_history request = Some msgs ->
  generate env request (map history_turn msgs) = (Ok ai, t) ->
  fst (chat env request)
    = Ok {| response := ai; response_chat_id := resolve_chat_id env request |}
  /\ http_status (fst (chat env request)) = 200
  /\ (db env = None -> snd (chat env request) = t)
  /\ (forall fs e tw,
        db env = Some fs ->
        store_writes fs request (resolve_chat_id env request) ai = (Raise e, tw) ->
        snd (chat env request)
          = t ++ tw ++ [Print (lit "Firebase storage error: " ++ str_exn env e)]).
Proof.
  intros Hh Hg.
  rewrite (chat_checked env request (generate_ok_has_model _ _ _ _ _ Hg)).
  rewrite (chat_body_run env request msgs Hh), Hg. simpl.
  repeat split.
  - intros Hdb. rewrite (store_exchange_unset _ _ _ _ Hdb). simpl. apply app_nil_r.
  - intros fs e tw Hdb Hw.
    now rewrite (store_exchange_failed _ _ _ _ _ _ _ Hdb Hw).
Qed.

Lemma chat_storage_is_best_effort_witness :
  fst (chat (Sample.env (Some Sample.gemini) None (Some Sample.broken_store) (Qmake 3 2))
            Sample.hi)
    = Ok {| response := lit "Hello! How can I help?"; response_chat_id := lit "chat_1" |}
  /\ In (Print (lit "Firebase storage error: 503 Deadline Exceeded"))
        (snd (chat (Sample.env (Some Sample.gemini) None (Some Sample.broken_store)
                      (Qmake 3 2)) Sample.hi)).
Proof.
  pose proof (chat_storage_is_best_effort
                (Sample.env (Some Sample.gemini) None (Some Sample.broken_store) (Qmake 3 2))
                Sample.hi [] (lit "Hello! How can I help?")
                [ModelStartChat []; ChatSendMessage (lit "Hi")]
                eq_refl eq_refl) as (Hr & _ & _ & Hlog).
  split; [exact Hr |].
  rewrite (Hlog Sample.broken_store
             (PyError "ServiceUnavailable" (lit "503 Deadline Exceeded"))
             [MessagesAdd (lit "u1") (lit "chat_1") (user_message Sample.hi)]
             eq_refl eq_refl).
  simpl. right. right. right. left. reflexivity.
Defined.

(** ** The writes of one request *)

Lemma generate_no_store_call env request history :
  List.filter store_call (snd (generate env request history)) = [].
Proof.
  unfold generate, vision_branch, text_branch, try_except, bind, lift, call, raise, print.
  destruct (screenshot request) as [s |]; [destruct (truthy (VStr s)) |].
  - destruct (screenshot_payload s) as [p | e]; simpl; [| reflexivity].
    destruct (b64decode env p) as [d | e]; simpl; [| reflexivity].
    destruct (vision_model env) as [vm |]; simpl; [| reflexivity].
    destruct (generate_content vm _ _ _); reflexivity.
  - destruct (model env) as [m |]; [| reflexivity].
    destruct (start_chat m history) as [session | e]; [| reflexivity].
    destruct (session (prompt request)); reflexivity.
  - destruct (model env) as [m |]; [| reflexivity].
    destruct (start_chat m history) as [session | e]; [| reflexivity].
    destruct (session (prompt request)); reflexivity.
Qed.

(** The store sees a prefix of the three writes, then at most a log line. *)
Lemma store_exchange_trace env request cid ai :
  exists k tl,
    snd (store_exchange env request cid ai)
      = take k (exchange_writes request cid ai) ++ tl
    /\ List.filter store_call tl = [].
Proof.
  unfold store_exchange. destruct (db env) as [fs |];
    [| exists 0%nat, []; split; reflexivity].
  unfold store_writes, try_except, bind, lift, call, print, exchange_writes.
  destruct (chat_document fs _ _) as [[] | e0]; simpl;
    [| exists 0%nat; eexists; split; reflexivity].
  destruct (messages_add fs _ _ (user_message request)) as [[] | e1]; simpl;
    [| exists 1%nat; eexists; split; reflexivity].
  destruct (messages_add fs _ _ (assistant_message ai)) as [[] | e2]; simpl;
    [| exists 2%nat; eexists; split; reflexivity].
  destruct (chat_set fs _ _ _ _) as [[] | e3]; simpl;
    exists 3%nat; eexists; split; reflexivity.
Qed.

(** Either nothing was written, or the AI call produced the reply's
    text and the trace is the generation followed by the storage. *)
Lemma chat_run_cases env request :
  List.filter store_call (snd (chat env request)) = []
  \/ exists msgs ai tg,
       chat_history request = Some msgs
       /\ generate env request (map history_turn msgs) = (Ok ai, tg)
       /\ chat env request =
            (Ok {| response := ai; response_chat_id := resolve_chat_id env request |},
             tg ++ snd (store_exchange env request (resolve_chat_id env request) ai)).
Proof.
  destruct (handles_cases env) as [[Hm Hv] | Hany].
  { left. now rewrite (chat_rejected env request Hm Hv). }
  rewrite (chat_checked env request Hany).
  destruct (chat_history request) as [msgs |] eqn:Hh.
  - rewrite (chat_body_run env request msgs Hh).
    pose proof (generate_no_store_call env request (map history_turn msgs)) as Hns.
    destruct (generate env request (map history_turn msgs)) as [[ai | e] tg] eqn:Hg.
    + right. now exists msgs, ai, tg.
    + left. exact Hns.
  - left. now rewrite (chat_body_null_history env request Hh).
Qed.

Lemma filter_prefix {X} (f : X -> bool) (l p q : list X) :
  l = p ++ q ->
  List.filter f p = take (length (List.filter f p)) (List.filter f l).
Proof.
  intros ->. rewrite List.filter_app. now rewrite take_app_length.
Qed.

Lemma take_exchange_writes_all request cid ai k u c d mg :
  In (ChatSet u c d mg) (take k (exchange_writes request cid ai)) ->
  take k (exchange_writes request cid ai) = exchange_writes request cid ai.
Proof.
  intros H. destruct (le_lt_dec 3 k) as [Hk | Hk].
  - apply take_ge. simpl. lia.
  - destruct k as [| [| [| k]]]; try lia; simpl in H; intuition discriminate.
Qed.

Lemma message_roles request ai :
  user_message request !! lit "role" = Some (VStr (lit "user"))
  /\ assistant_message ai !! lit "role" = Some (VStr (lit "assistant")).
Proof. split; reflexivity. Qed.

Lemma filter_store_call_take request cid ai k :
  List.filter store_call (take k (exchange_writes request cid ai))
    = take k (exchange_writes request cid ai).
Proof. destruct k as [| [| [| k]]]; simpl; rewrite ?take_nil; reflexivity. Qed.

(** The store calls of a whole run. *)
Lemma chat_store_calls env request :
  exists ai k,
    List.filter store_call (snd (chat env request))
      = take k (exchange_writes request (resolve_chat_id env request) ai)
    /\ (k <> 0%nat ->
        fst (chat env request)
          = Ok {| response := ai; response_chat_id := resolve_chat_id env request |}).
Proof.
  destruct (chat_run_cases env request) as [Hnone | (msgs & ai & tg & Hh & Hg & Hrun)].
  - exists [], 0%nat. split; [exact Hnone | intros H; now elim H].
  - exists ai.
    destruct (store_exchange_trace env request (resolve_chat_id env request) ai)
      as (k & tl & Hs & Htl).
    exists k. rewrite Hrun. simpl. rewrite Hs. split; [| reflexivity].
    rewrite !List.filter_app, Htl, app_nil_r, filter_store_call_take.
    pose proof (generate_no_store_call env request (map history_turn msgs)) as Hns.
    rewrite Hg in Hns. simpl in Hns. now rewrite Hns.
Qed.

(** ** Ordering of the writes *)

(** C9.  In every prefix [p] of the run of one request, the store calls
    issued so far are an initial segment of: append the user message,
    append the assistant message, upsert the chat metadata.  So a prefix
    that contains the upsert contains both appends before it, and one
    that contains the assistant append contains the user append before
    it. *)
Theorem chat_store_order env request p q :
  snd (chat env request) = p ++ q ->
  exists ai k,
    List.filter store_call p
      = take k (exchange_writes request (resolve_chat_id env request) ai)
    /\ (forall u c d mg,
          In (ChatSet u c d mg) p ->
          List.filter store_call p
            = [ MessagesAdd (user_id request) (resolve_chat_id env request)
                  (user_message request);
                MessagesAdd (user_id request) (resolve_chat_id env request)
                  (assistant_message ai);
                ChatSet u c d mg ])
    /\ (forall u c d,
          In (MessagesAdd u c d) p ->
          d !! lit "role" = Some (VStr (lit "assistant")) ->
          exists rest,
            List.filter store_call p
              = MessagesAdd (user_id request) (resolve_chat_id env request)
                  (user_message request)
                :: MessagesAdd u c d :: rest).
Proof.
  intros Hpq.
  destruct (chat_store_calls env request) as (ai & k & Hall & _).
  pose proof (filter_prefix store_call _ p q Hpq) as Hp.
  rewrite Hall, take_take in Hp.
  set (j := Nat.min (length (List.filter store_call p)) k) in Hp.
  exists ai, j. split; [exact Hp |]. split.
  - intros u c d mg Hin.
    assert (Hin' : In (ChatSet u c d mg) (List.filter store_call p))
      by (apply List.filter_In; now split).
    rewrite Hp in Hin' |- *.
    rewrite (take_exchange_writes_all _ _ _ _ _ _ _ _ Hin') in Hin' |- *.
    unfold exchange_writes in Hin' |- *.
    destruct Hin' as [Hin' | [Hin' | [Hin' | []]]]; try discriminate Hin'.
    now rewrite Hin'.
  - intros u c d Hin Hrole.
    assert (Hin' : In (MessagesAdd u c d) (List.filter store_call p))
      by (apply List.filter_In; now split).
    rewrite Hp in Hin' |- *.
    destruct (message_roles request ai) as [Hu Ha].
    destruct j as [| [| [| j]]]; simpl in Hin' |- *; rewrite ?take_nil in *.
    + contradiction.
    + destruct Hin' as [Hin' | []]. injection Hin' as <- <- <-.
      rewrite Hu in Hrole. discriminate Hrole.
    + destruct Hin' as [Hin' | [Hin' | []]]; injection Hin' as <- <- <-.
      * rewrite Hu in Hrole. discriminate Hrole.
      * eexists. reflexivity.
    + destruct Hin' as [Hin' | [Hin' | [Hin' | []]]]; try discriminate Hin';
        injection Hin' as <- <- <-.
      * rewrite Hu in Hrole. discriminate Hrole.
      * eexists. reflexivity.
Qed.

Lemma chat_store_order_witness :
  exists ai k,
    List.filter store_call
      [ ModelStartChat []; ChatSendMessage (lit "Hi");
        MessagesAdd (lit "u1") (lit "chat_1700000000") (user_message Sample.hi) ]
    = take k (exchange_writes Sample.hi (lit "chat_1700000000") ai).
Proof.
  destruct (chat_store_order Sample.up Sample.hi
              [ ModelStartChat []; ChatSendMessage (lit "Hi");
                MessagesAdd (lit "u1") (lit "chat_1700000000") (user_message Sample.hi) ]
              [ MessagesAdd (lit "u1") (lit "chat_1700000000")
                  (assistant_message (lit "Hello! How can I help?"));
                ChatSet (lit "u1") (lit "chat_1700000000")
                  (chat_metadata Sample.hi (lit "Hello! How can I help?")) true ]
              eq_refl) as (ai & k & H & _).
  exists ai, k. exact H.
Defined.

(** ** Truncation of the stored title and last message *)

Lemma truncate_short n s : (length s <= n)%nat -> truncate n s = s.
Proof.
  intros H. unfold truncate, len.
  destruct (Z.gtb_spec (Z.of_nat (length s)) (Z.of_nat n)); [lia | reflexivity].
Qed.

Lemma truncate_long n s :
  (n < length s)%nat -> truncate n s = take n s ++ lit "...".
Proof.
  intros H. unfold truncate, len, slice_to.
  destruct (Z.gtb_spec (Z.of_nat (length s)) (Z.of_nat n)); [reflexivity | lia].
Qed.

Lemma chat_metadata_fields request ai :
  chat_metadata request ai !! lit "title" = Some (VStr (truncate 50 (prompt request)))
  /\ chat_metadata request ai !! lit "last_message" = Some (VStr (truncate 100 ai)).
Proof. split; reflexivity. Qed.

(** C6.  Whenever the metadata upsert of an exchange is issued, its
    [title] is the prompt itself when the prompt has at most 50
    characters and its first 50 characters followed by ["..."] when it
    is longer; its [last_message] follows the same rule with 100 on the
    AI text that the reply carries. *)
Theorem stored_title_and_last_message env request u c doc mg :
  In (ChatSet u c doc mg) (snd (chat env request)) ->
  exists ai,
    fst (chat env request) = Ok {| response := ai; response_chat_id := c |}
    /\ ((length (prompt request) <= 50)%nat ->
        doc !! lit "title" = Some (VStr (prompt request)))
    /\ ((50 < length (prompt request))%nat ->
        doc !! lit "title" = Some (VStr (take 50 (prompt request) ++ lit "...")))
    /\ ((length ai <= 100)%nat ->
        doc !! lit "last_message" = Some (VStr ai))
    /\ ((100 < length ai)%nat ->
        doc !! lit "last_message" = Some (VStr (take 100 ai ++ lit "..."))).
Proof.
  intros Hin.
  destruct (chat_store_calls env request) as (ai & k & Hall & Hreply).
  assert (Hin' : In (ChatSet u c doc mg) (List.filter store_call (snd (chat env request))))
    by (apply List.filter_In; now split).
  rewrite Hall in Hin'.
  assert (Hk : k <> 0%nat) by (intros ->; exact Hin').
  rewrite (take_exchange_writes_all _ _ _ _ _ _ _ _ Hin') in Hin'.
  unfold exchange_writes in Hin'.
  destruct Hin' as [Hin' | [Hin' | [Hin' | []]]]; try discriminate Hin'.
  injection Hin' as <- <- <- <-.
  destruct (chat_metadata_fields request ai) as [Ht Hl].
  exists ai. split; [exact (Hreply Hk) |].
  repeat split; intros Hlen.
  - now rewrite Ht, truncate_short.
  - now rewrite Ht, truncate_long.
  - now rewrite Hl, truncate_short.
  - now rewrite Hl, truncate_long.
Qed.

Lemma stored_title_and_last_message_witness :
  exists ai,
    fst (chat Sample.up Sample.long) = Ok {| response := ai; response_chat_id := lit "c1" |}
    /\ chat_metadata Sample.long (lit "Hello! How can I help?") !! lit "title"
         = Some (VStr (take 50 (prompt Sample.long) ++ lit "..."))
    /\ chat_metadata Sample.long (lit "Hello! How can I help?") !! lit "last_message"
         = Some (VStr ai).
Proof.
  destruct (stored_title_and_last_message Sample.up Sample.long
              (lit "u1") (lit "c1")
              (chat_metadata Sample.long (lit "Hello! How can I help?")) true)
    as (ai & Hreply & _ & Hlong & Hshort & _).
  - right. right. right. right. left. reflexivity.
  - exists ai. split; [exact Hreply |]. split.
    + apply Hlong. vm_compute. lia.
    + apply Hshort. injection Hreply as <-. vm_compute. lia.
Defined.

(** ** The two generation branches *)

Lemma vision_branch_eq env request s :
  vision_branch env request s =
    match screenshot_payload s with
    | Raise e => vision_failed env e []
    | Ok payload =>
        match b64decode env payload with
        | Raise e => vision_failed env e []
        | Ok image =>
            match vision_model env with
            | None => vision_failed env (attribute_error_none "generate_content") []
            | Some vm =>
                match generate_content vm (prompt request) (lit "image/jpeg") image with
                | Ok text =>
                    (Ok text,
                     [VisionGenerateContent (prompt request) (lit "image/jpeg") image])
                | Raise e =>
                    vision_failed env e
                      [VisionGenerateContent (prompt request) (lit "image/jpeg") image]
                end
            end
        end
    end.
Proof.
  unfold vision_branch, vision_failed, vision_failure, try_except, bind, lift, call,
    raise, print.
  destruct (screenshot_payload s) as [payload | e]; [| reflexivity].
  destruct (b64decode env payload) as [image | e]; [| reflexivity].
  destruct (vision_model env) as [vm |]; [| reflexivity].
  destruct (generate_content vm _ _ _); reflexivity.
Qed.

Lemma text_branch_eq env request history :
  text_branch env request history =
    match model env with
    | None => (Raise (attribute_error_none "start_chat"), [])
    | Some m =>
        match start_chat m history with
        | Raise e => (Raise e, [ModelStartChat history])
        | Ok session =>
            (session (prompt request),
             [ModelStartChat history; ChatSendMessage (prompt request)])
        end
    end.
Proof.
  unfold text_branch, bind, call, raise.
  destruct (model env) as [m |]; [| reflexivity].
  destruct (start_chat m history) as [session | e]; reflexivity.
Qed.

Lemma generate_with_screenshot env request history s :
  screenshot request = Some s -> s <> [] ->
  generate env request history = vision_branch env request s.
Proof.
  intros Hs Hne. unfold generate. rewrite Hs.
  destruct s; [now elim Hne | reflexivity].
Qed.

Lemma generate_without_screenshot env request history :
  truthy_opt (screenshot request) = false ->
  generate env request history = text_branch env request history.
Proof.
  unfold generate, truthy_opt. intros H.
  destruct (screenshot request) as [s |]; [| reflexivity]. now rewrite H.
Qed.

Lemma store_exchange_no_provider_call env request cid ai :
  List.filter provider_call (snd (store_exchange env request cid ai)) = [].
Proof.
  unfold store_exchange. destruct (db env) as [fs |]; [| reflexivity].
  unfold store_writes, try_except, bind, lift, call, print.
  destruct (chat_document fs _ _) as [[] | e0]; simpl; [| reflexivity].
  destruct (messages_add fs _ _ (user_message request)) as [[] | e1]; simpl;
    [| reflexivity].
  destruct (messages_add fs _ _ (assistant_message ai)) as [[] | e2]; simpl;
    [| reflexivity].
  destruct (chat_set fs _ _ _ _) as [[] | e3]; reflexivity.
Qed.

(** The provider calls of a run are those of its generation step. *)
Lemma chat_provider_calls env request msgs :
  model env <> None \/ vision_model env <> None ->
  chat_history request = Some msgs ->
  List.filter provider_call (snd (chat env request))
    = List.filter provider_call (snd (generate env request (map history_turn msgs))).
Proof.
  intros Hany Hh. rewrite (chat_checked env request Hany).
  rewrite (chat_body_run env request msgs Hh).
  destruct (generate env request (map history_turn msgs)) as [[ai | e] tg];
    [| reflexivity].
  cbn [snd]. rewrite List.filter_app, store_exchange_no_provider_call.
  apply app_nil_r.
Qed.

Lemma chat_no_call_without_history env request :
  chat_history request = None -> snd (chat env request) = [].
Proof.
  intros Hh. unfold chat.
  destruct (is_none (model env) && is_none (vision_model env)); [reflexivity |].
  now rewrite (chat_body_null_history env request Hh).
Qed.

(** ** Vision path *)

Lemma vision_branch_provider_calls env request s :
  List.filter provider_call (snd (vision_branch env request s)) = []
  \/ exists payload image,
       screenshot_payload s = Ok payload
       /\ b64decode env payload = Ok image
       /\ List.filter provider_call (snd (vision_branch env request s))
            = [VisionGenerateContent (prompt request) (lit "image/jpeg") image].
Proof.
  rewrite vision_branch_eq. unfold vision_failed.
  destruct (screenshot_payload s) as [payload | e]; [| now left].
  destruct (b64decode env payload) as [image | e] eqn:Hd; [| now left].
  destruct (vision_model env) as [vm |]; [| now left].
  right. exists payload, image. repeat split; [exact Hd |].
  destruct (generate_content vm _ _ _); reflexivity.
Qed.

Lemma chat_set_history_same env request s h h' :
  screenshot request = Some s -> s <> [] ->
  chat env (set_history request (Some h)) = chat env (set_history request (Some h')).
Proof.
  intros Hs Hne. unfold chat.
  destruct (is_none (model env) && is_none (vision_model env)); [reflexivity |].
  rewrite (chat_body_run env (set_history request (Some h)) h eq_refl).
  rewrite (chat_body_run env (set_history request (Some h')) h' eq_refl).
  rewrite (generate_with_screenshot env (set_history request (Some h)) _ s Hs Hne).
  rewrite (generate_with_screenshot env (set_history request (Some h')) _ s Hs Hne).
  reflexivity.
Qed.

(** C2.  With a non-empty screenshot the only provider call a request
    can make is [vision_model.generate_content] on the prompt and the
    decoded payload (tagged ["image/jpeg"]); that call is made as soon
    as the vision handle is set, the history is a list and the payload
    decodes; and replacing the history by any other list changes
    neither the reply nor any call. *)
Theorem chat_vision_path env request s :
  screenshot request = Some s -> s <> [] ->
  (List.filter provider_call (snd (chat env request)) = []
   \/ exists payload image,
        screenshot_payload s = Ok payload
        /\ b64decode env payload = Ok image
        /\ List.filter provider_call (snd (chat env request))
             = [VisionGenerateContent (prompt request) (lit "image/jpeg") image])
  /\ (forall vm msgs payload image,
        vision_model env = Some vm ->
        chat_history request = Some msgs ->
        screenshot_payload s = Ok payload ->
        b64decode env payload = Ok image ->
        List.filter provider_call (snd (chat env request))
          = [VisionGenerateContent (prompt request) (lit "image/jpeg") image])
  /\ (forall h h',
        chat env (set_history request (Some h))
          = chat env (set_history request (Some h'))).
Proof.
  intros Hs Hne. split; [| split].
  - destruct (chat_history request) as [msgs |] eqn:Hh.
    2: { left. now rewrite (chat_no_call_without_history env request Hh). }
    destruct (handles_cases env) as [[Hm Hv] | Hany].
    { left. now rewrite (chat_rejected env request Hm Hv). }
    rewrite (chat_provider_calls env request msgs Hany Hh).
    rewrite (generate_with_screenshot env request _ s Hs Hne).
    apply vision_branch_provider_calls.
  - intros vm msgs payload image Hv Hh Hp Hd.
    rewrite (chat_provider_calls env request msgs);
      [| right; rewrite Hv; discriminate | exact Hh].
    rewrite (generate_with_screenshot env request _ s Hs Hne).
    rewrite vision_branch_eq, Hp, Hd, Hv. unfold vision_failed.
    destruct (generate_content vm _ _ _); reflexivity.
  - intros h h'. now apply (chat_set_history_same env request s).
Qed.

Lemma chat_vision_path_witness :
  List.filter provider_call
    (snd (chat Sample.up (Sample.with_image "data:image/png;base64,aGk=")))
  = [VisionGenerateContent (lit "What is this?") (lit "image/jpeg") [Byte.x68; Byte.x69]]
  /\ chat Sample.up (set_history (Sample.with_image "data:image/png;base64,aGk=") (Some []))
     = chat Sample.up
         (set_history (Sample.with_image "data:image/png;base64,aGk=")
            (chat_history Sample.with_history)).
Proof.
  assert (Hne : lit "data:image/png;base64,aGk=" <> []) by discriminate.
  destruct (chat_vision_path Sample.up (Sample.with_image "data:image/png;base64,aGk=")
              (lit "data:image/png;base64,aGk=") eq_refl Hne) as (_ & Hcall & Hsame).
  split.
  - exact (Hcall Sample.gemini _ (lit "aGk=") [Byte.x68; Byte.x69]
             eq_refl eq_refl eq_refl eq_refl).
  - apply Hsame.
Defined.

(** ** Text path *)

Lemma history_turn_role msg :
  (msg !! lit "role" = Some (VStr (lit "user")) -> role (history_turn msg) = lit "user")
  /\ (msg !! lit "role" <> Some (VStr (lit "user")) ->
      role (history_turn msg) = lit "model").
Proof.
  unfold history_turn, eq_str. cbn [role]. split.
  - intros ->. now rewrite bool_decide_eq_true_2.
  - intros Hne. destruct (msg !! lit "role") as [[]|]; try reflexivity.
    case_bool_decide as Hs; [| reflexivity]. subst. now elim Hne.
Qed.

(** C3.  Without a screenshot (absent or empty), with the text handle
    set and a list as history, the first provider call is
    [model.start_chat] on the history in its original order, entry by
    entry, each role being ["user"] when the entry's role is exactly
    ["user"] and ["model"] otherwise; the prompt is sent after it, on
    the session that call returns, and nothing else is called. *)
Theorem chat_text_path env request m msgs :
  truthy_opt (screenshot request) = false ->
  model env = Some m ->
  chat_history request = Some msgs ->
  exists rest,
    List.filter provider_call (snd (chat env request))
      = ModelStartChat (map history_turn msgs) :: rest
    /\ (rest = [] \/ rest = [ChatSendMessage (prompt request)])
    /\ (forall session,
          start_chat m (map history_turn msgs) = Ok session ->
          rest = [ChatSendMessage (prompt request)])
    /\ length (map history_turn msgs) = length msgs
    /\ (forall i msg,
          msgs !! i = Some msg ->
          exists t,
            map history_turn msgs !! i = Some t
            /\ parts t = [default (VStr (lit "")) (msg !! lit "content")]
            /\ (msg !! lit "role" = Some (VStr (lit "user")) -> role t = lit "user")
            /\ (msg !! lit "role" <> Some (VStr (lit "user")) -> role t = lit "model")).
Proof.
  intros Hs Hm Hh.
  rewrite (chat_provider_calls env request msgs);
    [| left; rewrite Hm; discriminate | exact Hh].
  rewrite (generate_without_screenshot env request _ Hs), text_branch_eq, Hm.
  assert (Hturns : forall i msg,
            msgs !! i = Some msg ->
            exists t,
              map history_turn msgs !! i = Some t
              /\ parts t = [default (VStr (lit "")) (msg !! lit "content")]
              /\ (msg !! lit "role" = Some (VStr (lit "user")) -> role t = lit "user")
              /\ (msg !! lit "role" <> Some (VStr (lit "user")) -> role t = lit "model")).
  { intros i msg Hi. exists (history_turn msg). split.
    - change (map history_turn msgs) with (history_turn <$> msgs).
      now rewrite list_lookup_fmap, Hi.
    - split; [reflexivity | apply history_turn_role]. }
  destruct (start_chat m (map history_turn msgs)) as [session | e].
  - exists [ChatSendMessage (prompt request)]. cbn [snd].
    repeat split; auto using length_map.
  - exists []. cbn [snd]. repeat split; auto using length_map. discriminate.
Qed.

Lemma chat_text_path_witness :
  List.filter provider_call (snd (chat Sample.up Sample.with_history))
  = [ ModelStartChat
        [ {| role := lit "user"; parts := [VStr (lit "Hi")] |};
          {| role := lit "model"; parts := [VStr (lit "Hello")] |};
          {| role := lit "model"; parts := [VStr (lit "Be brief")] |} ];
      ChatSendMessage (lit "And then?") ].
Proof.
  destruct (chat_text_path Sample.up Sample.with_history Sample.gemini
              [ <[lit "role" := VStr (lit "user")]> (<[lit "content" := VStr (lit "Hi")]> ∅);
                <[lit "role" := VStr (lit "assistant")]>
                  (<[lit "content" := VStr (lit "Hello")]> ∅);
                <[lit "role" := VStr (lit "system")]>
                  (<[lit "content" := VStr (lit "Be brief")]> ∅) ]
              eq_refl eq_refl eq_refl) as (rest & Hcalls & _ & Hsend & _).
  rewrite Hcalls, (Hsend _ eq_refl). reflexivity.
Defined.

(** ** The screenshot payload *)

Lemma split_char_comma s :
  split_char comma s =
    before_comma s :: match after_comma s with
                      | Some r => split_char comma r
                      | None => []
                      end.
Proof.
  induction s as [| x r IH]; cbn [split_char before_comma after_comma];
    [reflexivity |].
  destruct (N.eqb x comma); [reflexivity |]. now rewrite IH.
Qed.

Lemma contains_comma s :
  contains_char comma s = match after_comma s with Some _ => true | None => false end.
Proof.
  unfold contains_char.
  induction s as [| x r IH]; cbn [existsb after_comma]; [reflexivity |].
  rewrite (N.eqb_sym comma x). destruct (N.eqb x comma); [reflexivity | exact IH].
Qed.

(** What is decoded: the segment between the first comma and the next
    one, or the whole field when it has no comma.  The indexing of the
    source never fails. *)
Lemma screenshot_payload_eq s :
  screenshot_payload s =
    Ok match after_comma s with
       | Some r => before_comma r
       | None => s
       end.
Proof.
  unfold screenshot_payload. rewrite contains_comma, split_char_comma.
  destruct (after_comma s) as [r |]; [| reflexivity].
  now rewrite (split_char_comma r).
Qed.

Lemma before_comma_id s : after_comma s = None -> before_comma s = s.
Proof.
  induction s as [| x r IH]; cbn [before_comma after_comma]; [reflexivity |].
  destruct (N.eqb x comma); [discriminate |]. intros H. now rewrite IH.
Qed.

(** A data URI has one comma: the payload is all that follows it. *)
Lemma screenshot_payload_one_comma s r :
  after_comma s = Some r -> after_comma r = None ->
  screenshot_payload s = Ok r.
Proof.
  intros Hs Hr. rewrite screenshot_payload_eq, Hs. now rewrite before_comma_id.
Qed.

(** ** Decode failures *)

(** The lenient decoder reads digits and pad characters and nothing
    else: every other character is skipped without a trace. *)
Lemma a2b_loop_relevant s quad_pos leftchar pads out :
  a2b_loop s quad_pos leftchar pads out
    = a2b_loop (List.filter b64_relevant s) quad_pos leftchar pads out.
Proof.
  revert quad_pos leftchar pads out.
  induction s as [| c r IH]; intros quad_pos leftchar pads out; [reflexivity |].
  cbn [List.filter]. unfold b64_relevant at 1, is_b64_digit.
  destruct (N.eqb c pad_char) eqn:Hpad.
  - cbn [orb a2b_loop]. rewrite Hpad.
    destruct (Nat.leb 2 quad_pos); [| apply IH].
    destruct (Nat.leb 4 (quad_pos + (pads + 1))); [reflexivity | apply IH].
  - cbn [orb]. destruct (b64_digit c) as [d |] eqn:Hd.
    + cbn [a2b_loop]. rewrite Hpad, Hd.
      destruct quad_pos as [| [| [| q]]]; apply IH.
    + cbn [a2b_loop]. rewrite Hpad, Hd. apply IH.
Qed.

Lemma forallb_filter {X} (f g : X -> bool) l :
  forallb f l = true -> forallb f (List.filter g l) = true.
Proof.
  induction l as [| x l IH]; [reflexivity |]. cbn [forallb List.filter].
  intros H. apply andb_true_iff in H as [Hx Hl].
  destruct (g x); [cbn [forallb]; rewrite Hx |]; now apply IH.
Qed.

Lemma py_b64decode_relevant s :
  forallb (fun c => N.ltb c 128) s = true ->
  py_b64decode s = py_b64decode (List.filter b64_relevant s).
Proof.
  intros Hascii. unfold py_b64decode.
  rewrite Hascii, (forallb_filter _ b64_relevant s Hascii).
  apply a2b_loop_relevant.
Qed.

(** A text of ASCII characters none of which is a digit or a pad
    character decodes to the empty bytes: it is not rejected. *)
Lemma py_b64decode_foreign s :
  forallb (fun c => N.ltb c 128) s = true ->
  forallb (fun c => negb (b64_relevant c)) s = true ->
  py_b64decode s = Ok [].
Proof.
  intros Hascii Hforeign. rewrite (py_b64decode_relevant s Hascii).
  assert (Hnone : List.filter b64_relevant s = []).
  { clear Hascii. induction s as [| c r IH]; [reflexivity |].
    cbn [forallb List.filter] in *. apply andb_true_iff in Hforeign as [Hc Hr].
    apply negb_true_iff in Hc. rewrite Hc. now apply IH. }
  now rewrite Hnone.
Qed.

(** C7 (as amended).  When the decoder raises [e] on the payload of a
    non-empty screenshot, a request that passed the availability check
    and the history loop ends in an [HTTPException] with status 500,
    not in a reply: the vision handler logs and wraps [str(e)], and the
    outer handler wraps that exception in turn, so the detail is
    ["An error occurred: "] followed by [str()] of
    [HTTPException(500, "Vision model error: " + str(e))].  No provider
    and no store is called.  The text of [e] is part of the detail
    wherever [str()] of an [HTTPException] shows its detail. *)
Theorem chat_malformed_screenshot env request msgs s payload e :
  model env <> None \/ vision_model env <> None ->
  chat_history request = Some msgs ->
  screenshot request = Some s -> s <> [] ->
  screenshot_payload s = Ok payload ->
  b64decode env payload = Raise e ->
  chat env request
    = (Raise (HTTPException 500
         (lit "An error occurred: "
          ++ http_exception_str env 500 (lit "Vision model error: " ++ str_exn env e))),
       [Print (lit "Vision model error: " ++ str_exn env e)])
  /\ server_error (http_status (fst (chat env request))) = true
  /\ ((forall c d, includes d (http_exception_str env c d)) ->
      exists detail,
        fst (chat env request) = Raise (HTTPException 500 detail)
        /\ includes (str_exn env e) detail).
Proof.
  intros Hany Hh Hs Hne Hp Hd.
  assert (Hrun : chat env request
                 = (Raise (catch_all env (vision_failure env e)),
                    [Print (lit "Vision model error: " ++ str_exn env e)])).
  { rewrite (chat_checked env request Hany), (chat_body_run env request msgs Hh).
    rewrite (generate_with_screenshot env request _ s Hs Hne).
    now rewrite vision_branch_eq, Hp, Hd. }
  split; [exact Hrun |]. split; [now rewrite Hrun |].
  intros Hstr. rewrite Hrun. eexists. split; [reflexivity |].
  cbn [str_exn vision_failure].
  destruct (Hstr 500 (lit "Vision model error: " ++ str_exn env e)) as (a & b & Hab).
  rewrite Hab.
  exists (lit "An error occurred: " ++ a ++ lit "Vision model error: "), b.
  now rewrite <- !app_assoc.
Qed.

Lemma starlette_str_shows_detail c d : includes d (Sample.starlette_str c d).
Proof. exists (str_of_int c ++ lit ": "), []. unfold Sample.starlette_str.
  now rewrite app_nil_r, <- app_assoc. Qed.

Lemma chat_malformed_screenshot_witness :
  chat Lenient.env (Lenient.with_image "data:image/png;base64,abc" (Some []))
    = (Raise (HTTPException 500
         (lit "An error occurred: 500: Vision model error: Incorrect padding")),
       [Print (lit "Vision model error: Incorrect padding")])
  /\ exists detail,
       fst (chat Lenient.env (Lenient.with_image "data:image/png;base64,abc" (Some [])))
         = Raise (HTTPException 500 detail)
       /\ includes (lit "Incorrect padding") detail.
Proof.
  assert (Hne : lit "data:image/png;base64,abc" <> []) by discriminate.
  assert (Hany : model Lenient.env <> None \/ vision_model Lenient.env <> None)
    by (left; discriminate).
  destruct (chat_malformed_screenshot Lenient.env
              (Lenient.with_image "data:image/png;base64,abc" (Some [])) []
              (lit "data:image/png;base64,abc") (lit "abc")
              (PyError "binascii.Error" (lit "Incorrect padding"))
              Hany eq_refl eq_refl Hne eq_refl eq_refl)
    as (Hrun & _ & Hinc).
  split; [exact Hrun | exact (Hinc starlette_str_shows_detail)].
Defined.

(** C7 (as stated) fails.  The decoder of line 111 does not validate:
    [!!!!] is not base64, yet it decodes to the empty bytes, the vision
    model is called on them and the request is answered with a 200;
    the same happens to [aGk=!!!garbage], which decodes to [b"hi"].
    And a malformed payload in a request whose history is [null] is
    answered with a 500 that does not carry any decode-error text. *)
Lemma chat_accepts_malformed_base64 :
  is_base64 (lit "!!!!") = false
  /\ screenshot_payload (lit "data:image/png;base64,!!!!") = Ok (lit "!!!!")
  /\ py_b64decode (lit "!!!!") = Ok []
  /\ fst (chat Lenient.env (Lenient.with_image "data:image/png;base64,!!!!" (Some [])))
     = Ok {| response := lit "A cat on a sofa."; response_chat_id := lit "c1" |}
  /\ http_status
       (fst (chat Lenient.env (Lenient.with_image "data:image/png;base64,!!!!" (Some []))))
     = 200
  /\ List.filter provider_call
       (snd (chat Lenient.env (Lenient.with_image "data:image/png;base64,!!!!" (Some []))))
     = [VisionGenerateContent (lit "What is this?") (lit "image/jpeg") []]
  /\ is_base64 (lit "aGk=!!!garbage") = false
  /\ List.filter provider_call
       (snd (chat Lenient.env (Lenient.with_image "aGk=!!!garbage" (Some []))))
     = [VisionGenerateContent (lit "What is this?") (lit "image/jpeg") [Byte.x68; Byte.x69]]
  /\ is_base64 (lit "abc") = false
  /\ chat Lenient.env (Lenient.with_image "abc" None)
     = (Raise (HTTPException 500
          (lit "An error occurred: 'NoneType' object is not iterable")), []).
Proof. repeat split. Qed.

(** ** One handle missing *)

Lemma generate_needs_missing env request history :
  (truthy_opt (screenshot request) = false /\ model env = None)
  \/ (truthy_opt (screenshot request) = true /\ vision_model env = None) ->
  exists e t,
    generate env request history = (Raise e, t)
    /\ List.filter provider_call t = [].
Proof.
  intros [[Hs Hm] | [Hs Hv]].
  - rewrite (generate_without_screenshot env request _ Hs), text_branch_eq, Hm.
    now eexists _, _.
  - unfold truthy_opt in Hs. destruct (screenshot request) as [s |] eqn:Hshot;
      [| discriminate].
    assert (Hne : s <> []) by (intros ->; discriminate).
    rewrite (generate_with_screenshot env request _ s Hshot Hne).
    rewrite vision_branch_eq, Hv. unfold vision_failed.
    destruct (screenshot_payload s) as [payload | e]; [| now eexists _, _].
    destruct (b64decode env payload) as [image | e]; now eexists _, _.
Qed.

(** C10.  With exactly one Gemini handle set, the availability check
    lets every request through: no reply carries ["AI models not
    initialized"].  A request that needs the missing handle (no
    screenshot and no text handle, or a screenshot and no vision
    handle) calls no provider and ends in the catch-all's 500, whose
    detail is ["An error occurred: "] followed by [str()] of what was
    raised; for a list history (and a payload that decodes) what was
    raised is the attribute error of the [None] handle. *)
Theorem chat_one_model_missing env request :
  (model env = None /\ vision_model env <> None)
  \/ (model env <> None /\ vision_model env = None) ->
  (forall status,
     fst (chat env request)
       <> Raise (HTTPException status (lit "AI models not initialized")))
  /\ ((truthy_opt (screenshot request) = false /\ model env = None)
      \/ (truthy_opt (screenshot request) = true /\ vision_model env = None) ->
      List.filter provider_call (snd (chat env request)) = []
      /\ exists e,
           fst (chat env request)
             = Raise (HTTPException 500 (lit "An error occurred: " ++ str_exn env e)))
  /\ (forall msgs,
        truthy_opt (screenshot request) = false -> model env = None ->
        chat_history request = Some msgs ->
        chat env request
          = (Raise (HTTPException 500
               (lit "An error occurred: 'NoneType' object has no attribute 'start_chat'")),
             []))
  /\ (forall msgs s payload image,
        screenshot request = Some s -> s <> [] -> vision_model env = None ->
        chat_history request = Some msgs ->
        screenshot_payload s = Ok payload -> b64decode env payload = Ok image ->
        chat env request
          = (Raise (HTTPException 500
               (lit "An error occurred: "
                ++ http_exception_str env 500
                     (lit "Vision model error: 'NoneType' object has no attribute 'generate_content'"))),
             [Print (lit "Vision model error: 'NoneType' object has no attribute 'generate_content'")])).
Proof.
  intros Hone.
  assert (Hany : model env <> None \/ vision_model env <> None)
    by (destruct Hone as [[_ H] | [H _]]; [right | left]; exact H).
  split; [intros status; now apply chat_checked_not_rejected |].
  split; [| split].
  - intros Hneed. rewrite (chat_checked env request Hany).
    destruct (chat_history request) as [msgs |] eqn:Hh.
    + rewrite (chat_body_run env request msgs Hh).
      destruct (generate_needs_missing env request (map history_turn msgs) Hneed)
        as (e & t & Hg & Ht).
      rewrite Hg. split; [exact Ht | now exists e].
    + rewrite (chat_body_null_history env request Hh).
      split; [reflexivity | now exists not_iterable_none].
  - intros msgs Hs Hm Hh.
    rewrite (chat_checked env request Hany), (chat_body_run env request msgs Hh).
    now rewrite (generate_without_screenshot env request _ Hs), text_branch_eq, Hm.
  - intros msgs s payload image Hs Hne Hv Hh Hp Hd.
    rewrite (chat_checked env request Hany), (chat_body_run env request msgs Hh).
    rewrite (generate_with_screenshot env request _ s Hs Hne).
    now rewrite vision_branch_eq, Hp, Hd, Hv.
Qed.

Lemma chat_one_model_missing_witness :
  chat (Sample.env None (Some Sample.gemini) None (Qmake 3 2)) Sample.hi
    = (Raise (HTTPException 500
         (lit "An error occurred: 'NoneType' object has no attribute 'start_chat'")),
       [])
  /\ fst (chat (Sample.env (Some Sample.gemini) None None (Qmake 3 2))
               (Sample.with_image "aGk="))
     = Raise (HTTPException 500
         (lit "An error occurred: 500: Vision model error: 'NoneType' object has no attribute 'generate_content'")).
Proof.
  split.
  - assert (Hone : (model (Sample.env None (Some Sample.gemini) None (Qmake 3 2)) = None
                    /\ vision_model (Sample.env None (Some Sample.gemini) None (Qmake 3 2))
                       <> None)
                   \/ (model (Sample.env None (Some Sample.gemini) None (Qmake 3 2)) <> None
                       /\ vision_model (Sample.env None (Some Sample.gemini) None (Qmake 3 2))
                          = None))
      by (left; split; [reflexivity | discriminate]).
    destruct (chat_one_model_missing _ Sample.hi Hone) as (_ & _ & Htext & _).
    exact (Htext [] eq_refl eq_refl eq_refl).
  - assert (Hone : (model (Sample.env (Some Sample.gemini) None None (Qmake 3 2)) = None
                    /\ vision_model (Sample.env (Some Sample.gemini) None None (Qmake 3 2))
                       <> None)
                   \/ (model (Sample.env (Some Sample.gemini) None None (Qmake 3 2)) <> None
                       /\ vision_model (Sample.env (Some Sample.gemini) None None (Qmake 3 2))
                          = None))
      by (right; split; [discriminate | reflexivity]).
    assert (Hne : lit "aGk=" <> []) by discriminate.
    destruct (chat_one_model_missing _ (Sample.with_image "aGk=") Hone)
      as (_ & _ & _ & Hvision).
    rewrite (Hvision _ (lit "aGk=") (lit "aGk=") [Byte.x68; Byte.x69]
               eq_refl Hne eq_refl eq_refl eq_refl eq_refl).
    reflexivity.
Defined.

(** Start-up never leaves exactly one handle set: the state of C10 is
    reached only when the globals are replaced after start-up. *)
Lemma init_gemini_both_or_neither configure make m v :
  init_gemini configure make = (m, v) -> (m = None <-> v = None).
Proof.
  unfold init_gemini. intros H.
  destruct configure; [| injection H as <- <-; tauto].
  destruct (make "gemini-pro"%string); [| injection H as <- <-; tauto].
  destruct (make "gemini-pro-vision"%string); injection H as <- <-;
    [split; discriminate | tauto].
Qed.

(** ** Chat identifiers *)

Lemma chat_ok_inv env request r t :
  chat env request = (Ok r, t) ->
  exists msgs ai tg,
    chat_history request = Some msgs
    /\ generate env request (map history_turn msgs) = (Ok ai, tg)
    /\ r = {| response := ai; response_chat_id := resolve_chat_id env request |}.
Proof.
  unfold chat, try_except, raise.
  destruct (is_none (model env) && is_none (vision_model env)); [discriminate |].
  destruct (chat_history request) as [msgs |] eqn:Hh.
  - rewrite (chat_body_run env request msgs Hh).
    destruct (generate env request (map history_turn msgs)) as [[ai | e] tg] eqn:Hg;
      [| discriminate].
    intros H. injection H as <- _. now exists msgs, ai, tg.
  - now rewrite (chat_body_null_history env request Hh).
Qed.

Lemma resolve_supplied env request c :
  chat_id request = Some c -> c <> [] -> resolve_chat_id env request = c.
Proof.
  intros Hc Hne. unfold resolve_chat_id. rewrite Hc.
  destruct c; [now elim Hne | reflexivity].
Qed.

Lemma resolve_generated env request :
  chat_id request = None \/ chat_id request = Some [] ->
  resolve_chat_id env request = new_chat_id (time_time env).
Proof. unfold resolve_chat_id. now intros [-> | ->]. Qed.

Lemma new_chat_id_inj a b :
  new_chat_id a = new_chat_id b -> int_of_float a = int_of_float b.
Proof.
  unfold new_chat_id. intros H. apply app_inv_head in H. now apply str_of_int_inj.
Qed.

(** C5 (as amended).  In a successful reply a supplied, non-empty
    [chat_id] comes back unchanged; an absent or empty one is replaced
    by ["chat_"] followed by the request time in whole seconds; and two
    requests that get generated ids get different ones whenever their
    whole-second request times differ. *)
Theorem chat_id_resolution env request r t :
  chat env request = (Ok r, t) ->
  (forall c, chat_id request = Some c -> c <> [] -> response_chat_id r = c)
  /\ (chat_id request = None \/ chat_id request = Some [] ->
      response_chat_id r = lit "chat_" ++ str_of_int (int_of_float (time_time env)))
  /\ (forall now' request' r' t',
        chat_id request = None \/ chat_id request = Some [] ->
        chat_id request' = None \/ chat_id request' = Some [] ->
        chat (set_clock env now') request' = (Ok r', t') ->
        int_of_float (time_time env) <> int_of_float now' ->
        response_chat_id r <> response_chat_id r').
Proof.
  intros Hrun.
  destruct (chat_ok_inv env request r t Hrun) as (msgs & ai & tg & _ & _ & ->).
  cbn [response_chat_id]. split; [| split].
  - intros c Hc Hne. now apply resolve_supplied.
  - intros Hnew. now rewrite resolve_generated.
  - intros now' request' r' t' Hnew Hnew' Hrun' Hsec.
    destruct (chat_ok_inv _ request' r' t' Hrun') as (msgs' & ai' & tg' & _ & _ & ->).
    cbn [response_chat_id]. rewrite !resolve_generated by assumption.
    intros Heq. apply Hsec. now apply new_chat_id_inj in Heq.
Qed.

Lemma chat_id_resolution_witness :
  response_chat_id
    {| response := lit "Hello! How can I help?"; response_chat_id := lit "c1" |}
  = lit "c1"
  /\ lit "chat_1700000000" <> lit "chat_1700000001".
Proof.
  destruct (chat_id_resolution Sample.up Sample.with_history
              {| response := lit "Hello! How can I help?"; response_chat_id := lit "c1" |}
              (snd (chat Sample.up Sample.with_history)) eq_refl) as (Hkeep & _ & _).
  destruct (chat_id_resolution Sample.up Sample.hi
              {| response := lit "Hello! How can I help?";
                 response_chat_id := lit "chat_1700000000" |}
              (snd (chat Sample.up Sample.hi)) eq_refl) as (_ & _ & Hfresh).
  split.
  - apply Hkeep; [reflexivity | discriminate].
  - apply (Hfresh (Qmake 3400000003 2) Sample.hi
             {| response := lit "Hello! How can I help?";
                response_chat_id := lit "chat_1700000001" |}
             (snd (chat (set_clock Sample.up (Qmake 3400000003 2)) Sample.hi)));
      [left; reflexivity | left; reflexivity | reflexivity | vm_compute; discriminate].
Defined.

(** C5 (as stated) fails: two creation requests handled a half second
    apart, at 1700000000.25 and 1700000000.75, are given the same
    identifier; and a [chat_id] supplied as the empty string is not
    returned. *)
Lemma chat_ids_collide_within_a_second :
  ~ Qeq (Qmake 6800000001 4) (Qmake 6800000003 4)
  /\ chat_id Sample.hi = None
  /\ fst (chat (set_clock Sample.up (Qmake 6800000001 4)) Sample.hi)
     = Ok {| response := lit "Hello! How can I help?";
             response_chat_id := lit "chat_1700000000" |}
  /\ fst (chat (set_clock Sample.up (Qmake 6800000003 4)) Sample.hi)
     = Ok {| response := lit "Hello! How can I help?";
             response_chat_id := lit "chat_1700000000" |}
  /\ fst (chat Sample.up
            {| prompt := lit "Hi"; user_id := lit "u1"; chat_id := Some (lit "");
               screenshot := None; chat_history := Some [] |})
     = Ok {| response := lit "Hello! How can I help?";
             response_chat_id := lit "chat_1700000000" |}.
Proof.
  split; [unfold Qeq; simpl; lia |]. repeat split.
Qed.

(** ** Reading the messages of a chat *)

Lemma lookup_timestamp_with_id (message : snapshot) :
  (<[lit "id" := VStr (snap_id message)]> (to_dict message) : gmap str pyval)
    !! lit "timestamp"
  = to_dict message !! lit "timestamp".
Proof. apply lookup_insert_ne. discriminate. Qed.

Lemma message_entry_timestamp env message :
  has_timestamp message = true ->
  message_entry env message = (Raise isinstance_error, []).
Proof.
  unfold has_timestamp, message_entry, format_timestamp.
  rewrite lookup_timestamp_with_id.
  destruct (to_dict message !! lit "timestamp") as [ts |]; [| discriminate].
  now intros ->.
Qed.

Lemma message_entry_plain env message :
  has_timestamp message = false ->
  message_entry env message
    = (Ok (<[lit "id" := VStr (snap_id message)]> (to_dict message)), []).
Proof.
  unfold has_timestamp, message_entry, format_timestamp.
  rewrite lookup_timestamp_with_id.
  destruct (to_dict message !! lit "timestamp") as [ts |]; [| reflexivity].
  now intros ->.
Qed.

(** The loop stops at the first message that has a timestamp. *)
Lemma collect_messages_timestamp env messages acc :
  existsb has_timestamp messages = true ->
  collect_messages env messages acc = (Raise isinstance_error, []).
Proof.
  revert acc. induction messages as [| message rest IH]; intros acc H;
    [discriminate |].
  cbn [collect_messages existsb] in *.
  destruct (has_timestamp message) eqn:Hts.
  - now rewrite (message_entry_timestamp env message Hts).
  - rewrite (message_entry_plain env message Hts). unfold bind.
    now rewrite (IH _ H).
Qed.

(** Messages without one are returned in the order of the query, each
    with its id. *)
Lemma collect_messages_plain env messages acc :
  existsb has_timestamp messages = false ->
  collect_messages env messages acc
    = (Ok (acc ++ map (fun m => <[lit "id" := VStr (snap_id m)]> (to_dict m)) messages),
       []).
Proof.
  revert acc. induction messages as [| message rest IH]; intros acc H.
  - cbn. now rewrite app_nil_r.
  - cbn [collect_messages existsb map] in *.
    apply orb_false_iff in H as [Hts H].
    rewrite (message_entry_plain env message Hts). unfold bind.
    rewrite (IH _ H). cbn. now rewrite <- app_assoc.
Qed.

(** C4 (what the code does).  As soon as the query yields a message
    whose [timestamp] field is truthy (every committed timestamp is),
    [isinstance(ts, firestore.SERVER_TIMESTAMP)] raises, because its
    second argument is an object and not a class, and the handler
    answers 500 instead of the list of messages. *)
Theorem get_chat_messages_timestamp_error env fs uid cid :
  db env = Some fs ->
  existsb has_timestamp (fst (messages_stream fs uid cid)) = true ->
  get_chat_messages env uid cid
    = (Raise (HTTPException 500
         (lit "An error occurred: isinstance() arg 2 must be a type, a tuple of types, or a union")),
       [MessagesStream uid cid (lit "timestamp")]).
Proof.
  intros Hdb Hts. unfold get_chat_messages. rewrite Hdb.
  unfold try_except, bind, call, raise.
  now rewrite (collect_messages_timestamp env _ [] Hts).
Qed.

Lemma get_chat_messages_timestamp_error_witness :
  get_chat_messages Sample.up (lit "u1") (lit "c1")
    = (Raise (HTTPException 500
         (lit "An error occurred: isinstance() arg 2 must be a type, a tuple of types, or a union")),
       [MessagesStream (lit "u1") (lit "c1") (lit "timestamp")])
  /\ http_status (fst (get_chat_messages Sample.up (lit "u1") (lit "c1"))) = 500.
Proof.
  pose proof (get_chat_messages_timestamp_error Sample.up Sample.store
                (lit "u1") (lit "c1") eq_refl eq_refl) as H.
  split; [exact H | now rewrite H].
Defined.

(** Only a chat whose messages carry no timestamp is read back. *)
Lemma get_chat_messages_plain env fs uid cid :
  db env = Some fs ->
  existsb has_timestamp (fst (messages_stream fs uid cid)) = false ->
  snd (messages_stream fs uid cid) = None ->
  get_chat_messages env uid cid
    = (Ok (map (fun m => <[lit "id" := VStr (snap_id m)]> (to_dict m))
             (fst (messages_stream fs uid cid))),
       [MessagesStream uid cid (lit "timestamp")]).
Proof.
  intros Hdb Hts Hend. unfold get_chat_messages. rewrite Hdb.
  unfold try_except, bind, call, raise.
  now rewrite (collect_messages_plain env _ [] Hts), Hend.
Qed.

Lemma get_chat_messages_unset env uid cid :
  db env = None ->
  get_chat_messages env uid cid
    = (Raise (HTTPException 500 (lit "Database not initialized")), []).
Proof. intros H. unfold get_chat_messages. now rewrite H. Qed.

(** * Further properties of the handlers *)

(** ** Replies of [/chat] *)

(** X1.  [/chat] answers with a 200 or with a 500 and nothing else: no
    other exception escapes the handler and no other status is used. *)
Theorem chat_replies_200_or_500 env request :
  (exists r, fst (chat env request) = Ok r
             /\ http_status (fst (chat env request)) = 200)
  \/ (exists detail, fst (chat env request) = Raise (HTTPException 500 detail)
                     /\ http_status (fst (chat env request)) = 500).
Proof.
  destruct (handles_cases env) as [[Hm Hv] | Hany].
  - right. rewrite (chat_rejected env request Hm Hv). now eexists.
  - rewrite (chat_checked env request Hany).
    destruct (chat_body env request) as [[r | e] t]; [left | right]; now eexists.
Qed.

(** X2.  A request that is answered with an error has written nothing:
    no message append and no metadata upsert was issued. *)
Theorem chat_failure_stores_nothing env request e :
  fst (chat env request) = Raise e ->
  List.filter store_call (snd (chat env request)) = [].
Proof.
  intros Hfail.
  destruct (chat_run_cases env request) as [Hnone | (msgs & ai & tg & _ & _ & Hrun)];
    [exact Hnone |].
  rewrite Hrun in Hfail. discriminate Hfail.
Qed.

Lemma chat_failure_stores_nothing_witness :
  List.filter store_call
    (snd (chat Sample.up (Sample.with_image "data:image/png;base64,abc"))) = [].
Proof.
  apply (chat_failure_stores_nothing Sample.up
           (Sample.with_image "data:image/png;base64,abc")
           (HTTPException 500
              (lit "An error occurred: 500: Vision model error: Incorrect padding"))).
  reflexivity.
Defined.

(** X3.  A failure of the provider is answered with a 500 that carries
    its text: on the text path the detail is ["An error occurred: "]
    followed by [str(e)], whether [start_chat] or [send_message]
    raised, and nothing is logged; on the vision path the error is
    logged and wrapped once more by the vision handler. *)
Theorem chat_provider_error_surfaced env request msgs e :
  chat_history request = Some msgs ->
  (forall m,
     truthy_opt (screenshot request) = false -> model env = Some m ->
     start_chat m (map history_turn msgs) = Raise e ->
     chat env request
       = (Raise (HTTPException 500 (lit "An error occurred: " ++ str_exn env e)),
          [ModelStartChat (map history_turn msgs)]))
  /\ (forall m session,
        truthy_opt (screenshot request) = false -> model env = Some m ->
        start_chat m (map history_turn msgs) = Ok session ->
        session (prompt request) = Raise e ->
        chat env request
          = (Raise (HTTPException 500 (lit "An error occurred: " ++ str_exn env e)),
             [ModelStartChat (map history_turn msgs); ChatSendMessage (prompt request)]))
  /\ (forall vm s payload image,
        screenshot request = Some s -> s <> [] -> vision_model env = Some vm ->
        screenshot_payload s = Ok payload -> b64decode env payload = Ok image ->
        generate_content vm (prompt request) (lit "image/jpeg") image = Raise e ->
        chat env request
          = (Raise (HTTPException 500
               (lit "An error occurred: "
                ++ http_exception_str env 500 (lit "Vision model error: " ++ str_exn env e))),
             [VisionGenerateContent (prompt request) (lit "image/jpeg") image;
              Print (lit "Vision model error: " ++ str_exn env e)])).
Proof.
  intros Hh. split; [| split].
  - intros m Hs Hm Hstart.
    rewrite (chat_checked env request) by (left; rewrite Hm; discriminate).
    rewrite (chat_body_run env request msgs Hh).
    now rewrite (generate_without_screenshot env request _ Hs), text_branch_eq, Hm, Hstart.
  - intros m session Hs Hm Hstart Hsend.
    rewrite (chat_checked env request) by (left; rewrite Hm; discriminate).
    rewrite (chat_body_run env request msgs Hh).
    now rewrite (generate_without_screenshot env request _ Hs), text_branch_eq, Hm,
      Hstart, Hsend.
  - intros vm s payload image Hs Hne Hv Hp Hd Hgen.
    rewrite (chat_checked env request) by (right; rewrite Hv; discriminate).
    rewrite (chat_body_run env request msgs Hh).
    rewrite (generate_with_screenshot env request _ s Hs Hne).
    now rewrite vision_branch_eq, Hp, Hd, Hv, Hgen.
Qed.

Lemma chat_provider_error_surfaced_witness :
  chat Demo.busy_env Sample.hi
    = (Raise (HTTPException 500 (lit "An error occurred: 429 Quota exceeded")),
       [ModelStartChat []])
  /\ chat Demo.busy_env (Sample.with_image "aGk=")
     = (Raise (HTTPException 500
          (lit "An error occurred: 500: Vision model error: 429 Quota exceeded")),
        [VisionGenerateContent (lit "What is this?") (lit "image/jpeg") [Byte.x68; Byte.x69];
         Print (lit "Vision model error: 429 Quota exceeded")]).
Proof.
  split.
  - destruct (chat_provider_error_surfaced Demo.busy_env Sample.hi []
                (PyError "ResourceExhausted" (lit "429 Quota exceeded")) eq_refl)
      as (Hstart & _ & _).
    exact (Hstart Demo.busy eq_refl eq_refl eq_refl).
  - assert (Hne : lit "aGk=" <> []) by discriminate.
    destruct (chat_provider_error_surfaced Demo.busy_env (Sample.with_image "aGk=")
                [ <[lit "role" := VStr (lit "user")]> (<[lit "content" := VStr (lit "Hi")]> ∅) ]
                (PyError "ResourceExhausted" (lit "429 Quota exceeded")) eq_refl)
      as (_ & _ & Hvision).
    exact (Hvision Demo.busy (lit "aGk=") (lit "aGk=") [Byte.x68; Byte.x69]
             eq_refl Hne eq_refl eq_refl eq_refl eq_refl).
Defined.

(** ** What is written, and where *)

Lemma In_take {X} (x : X) k (l : list X) : In x (take k l) -> In x l.
Proof.
  intros H. apply list_elem_of_In. apply list_elem_of_In in H.
  rewrite <- (take_drop k l). apply elem_of_app. now left.
Qed.

(** The store calls of a run are among the three writes of the
    exchange, for the text that the reply carries. *)
Lemma chat_store_call_inv env request ev :
  In ev (snd (chat env request)) -> store_call ev = true ->
  exists ai,
    fst (chat env request)
      = Ok {| response := ai; response_chat_id := resolve_chat_id env request |}
    /\ In ev (exchange_writes request (resolve_chat_id env request) ai).
Proof.
  intros Hin Hstore.
  destruct (chat_store_calls env request) as (ai & k & Hall & Hreply).
  assert (Hin' : In ev (List.filter store_call (snd (chat env request))))
    by (apply List.filter_In; now split).
  rewrite Hall in Hin'.
  assert (Hk : k <> 0%nat) by (intros ->; exact Hin').
  exists ai. split; [exact (Hreply Hk) | exact (In_take _ _ _ Hin')].
Qed.

(** X4.  Every write of a request goes to [users/<user_id>/chats/<id>]
    for the [user_id] of the request and the chat id that the reply
    returns, and the metadata write is a merge. *)
Theorem chat_writes_address_reply env request :
  forall ev,
    In ev (snd (chat env request)) -> store_call ev = true ->
    exists r doc,
      fst (chat env request) = Ok r
      /\ (ev = MessagesAdd (user_id request) (response_chat_id r) doc
          \/ ev = ChatSet (user_id request) (response_chat_id r) doc true).
Proof.
  intros ev Hin Hstore.
  destruct (chat_store_call_inv env request ev Hin Hstore) as (ai & Hreply & Hw).
  unfold exchange_writes in Hw.
  destruct Hw as [<- | [<- | [<- | []]]]; eexists _, _; (split; [exact Hreply |]);
    cbn [response_chat_id]; auto.
Qed.

Lemma chat_writes_address_reply_witness :
  exists r doc,
    fst (chat Sample.up Sample.with_history) = Ok r
    /\ (MessagesAdd (lit "u1") (lit "c1") (user_message Sample.with_history)
          = MessagesAdd (user_id Sample.with_history) (response_chat_id r) doc
        \/ MessagesAdd (lit "u1") (lit "c1") (user_message Sample.with_history)
          = ChatSet (user_id Sample.with_history) (response_chat_id r) doc true).
Proof.
  apply (chat_writes_address_reply Sample.up Sample.with_history
           (MessagesAdd (lit "u1") (lit "c1") (user_message Sample.with_history))).
  - right. right. left. reflexivity.
  - reflexivity.
Defined.

Lemma message_documents request ai :
  (user_message request !! lit "content" = Some (VStr (prompt request))
   /\ user_message request !! lit "timestamp" = Some SERVER_TIMESTAMP
   /\ user_message request !! lit "has_image"
        = Some (VBool (truthy_opt (screenshot request))))
  /\ (assistant_message ai !! lit "content" = Some (VStr ai)
      /\ assistant_message ai !! lit "timestamp" = Some SERVER_TIMESTAMP
      /\ assistant_message ai !! lit "has_image" = Some (VBool false)).
Proof. repeat split. Qed.

(** X5.  Every message document that a request appends is one of two:
    the user's, holding the prompt, role ["user"] and [has_image] set
    exactly when the request has a non-empty screenshot; or the
    assistant's, holding the text that the reply carries, role
    ["assistant"] and [has_image] false.  Both leave the timestamp to
    the server. *)
Theorem appended_messages env request u c doc :
  In (MessagesAdd u c doc) (snd (chat env request)) ->
  exists ai,
    fst (chat env request) = Ok {| response := ai; response_chat_id := c |}
    /\ doc !! lit "timestamp" = Some SERVER_TIMESTAMP
    /\ ((doc !! lit "role" = Some (VStr (lit "user"))
         /\ doc !! lit "content" = Some (VStr (prompt request))
         /\ doc !! lit "has_image" = Some (VBool (truthy_opt (screenshot request))))
        \/ (doc !! lit "role" = Some (VStr (lit "assistant"))
            /\ doc !! lit "content" = Some (VStr ai)
            /\ doc !! lit "has_image" = Some (VBool false))).
Proof.
  intros Hin.
  destruct (chat_store_call_inv env request _ Hin eq_refl) as (ai & Hreply & Hw).
  destruct (message_roles request ai) as [Hru Hra].
  destruct (message_documents request ai) as [(Hcu & Htu & Hiu) (Hca & Hta & Hia)].
  exists ai. unfold exchange_writes in Hw.
  destruct Hw as [Hw | [Hw | [Hw | []]]]; try discriminate Hw;
    injection Hw as <- <- <-; (split; [exact Hreply |]); auto 10.
Qed.

Lemma appended_messages_witness :
  exists ai,
    fst (chat Sample.up (Sample.with_image "aGk="))
      = Ok {| response := ai; response_chat_id := lit "c1" |}
    /\ user_message (Sample.with_image "aGk=") !! lit "has_image" = Some (VBool true).
Proof.
  destruct (appended_messages Sample.up (Sample.with_image "aGk=")
              (lit "u1") (lit "c1") (user_message (Sample.with_image "aGk=")))
    as (ai & Hreply & _ & [(_ & _ & Himg) | (Hrole & _)]).
  - right. left. reflexivity.
  - exists ai. split; [exact Hreply | exact Himg].
  - discriminate Hrole.
Defined.

Lemma chat_metadata_keys request ai k :
  is_Some (chat_metadata request ai !! k)
  <-> k = lit "updated_at" \/ k = lit "title" \/ k = lit "last_message".
Proof.
  split.
  - unfold chat_metadata. intros H.
    repeat (apply lookup_insert_is_Some in H as [<- | [_ H]]; [tauto |]).
    rewrite lookup_empty in H. now apply is_Some_None in H.
  - intros [-> | [-> | ->]]; eexists; reflexivity.
Qed.

(** X6.  The metadata upsert writes three fields and no other:
    [updated_at], left to the server, [title] and [last_message]; it is
    issued with [merge=True], so every other field of the chat document
    is left as it is. *)
Theorem metadata_upsert_fields env request u c doc mg :
  In (ChatSet u c doc mg) (snd (chat env request)) ->
  mg = true
  /\ doc !! lit "updated_at" = Some SERVER_TIMESTAMP
  /\ (forall k, is_Some (doc !! k)
                <-> k = lit "updated_at" \/ k = lit "title" \/ k = lit "last_message").
Proof.
  intros Hin.
  destruct (chat_store_call_inv env request _ Hin eq_refl) as (ai & _ & Hw).
  unfold exchange_writes in Hw.
  destruct Hw as [Hw | [Hw | [Hw | []]]]; try discriminate Hw.
  injection Hw as <- <- <- <-.
  split; [reflexivity |]. split; [reflexivity |].
  apply chat_metadata_keys.
Qed.

Lemma metadata_upsert_fields_witness :
  chat_metadata Sample.hi (lit "Hello! How can I help?") !! lit "updated_at"
    = Some SERVER_TIMESTAMP
  /\ ~ is_Some (chat_metadata Sample.hi (lit "Hello! How can I help?") !! lit "owner").
Proof.
  destruct (metadata_upsert_fields Sample.up Sample.hi (lit "u1") (lit "chat_1700000000")
              (chat_metadata Sample.hi (lit "Hello! How can I help?")) true)
    as (_ & Hup & Hkeys).
  - right. right. right. right. left. reflexivity.
  - split; [exact Hup |]. intros Hsome. apply Hkeys in Hsome.
    destruct Hsome as [H | [H | H]]; discriminate H.
Defined.

Lemma truncate_length n s :
  length (truncate n s)
    = if (length s <=? n)%nat then length s else (n + 3)%nat.
Proof.
  destruct (Nat.leb_spec (length s) n) as [Hle | Hlt].
  - now rewrite truncate_short.
  - rewrite truncate_long by exact Hlt.
    rewrite length_app, length_take. simpl. lia.
Qed.

(** X7.  The stored title has the length of the prompt when that is at
    most 50 and exactly 53 otherwise, so a prompt of 51 or 52
    characters is stored longer than it was sent; the stored
    last_message has the length of the reply's text when that is at
    most 100 and exactly 103 otherwise. *)
Theorem stored_field_lengths env request u c doc mg :
  In (ChatSet u c doc mg) (snd (chat env request)) ->
  exists title last ai,
    fst (chat env request) = Ok {| response := ai; response_chat_id := c |}
    /\ doc !! lit "title" = Some (VStr title)
    /\ doc !! lit "last_message" = Some (VStr last)
    /\ length title
         = (if (length (prompt request) <=? 50)%nat
            then length (prompt request) else 53%nat)
    /\ length last = (if (length ai <=? 100)%nat then length ai else 103%nat).
Proof.
  intros Hin.
  destruct (chat_store_call_inv env request _ Hin eq_refl) as (ai & Hreply & Hw).
  unfold exchange_writes in Hw.
  destruct Hw as [Hw | [Hw | [Hw | []]]]; try discriminate Hw.
  injection Hw as <- <- <- <-.
  destruct (chat_metadata_fields request ai) as [Ht Hl].
  exists (truncate 50 (prompt request)), (truncate 100 ai), ai.
  repeat split; auto using truncate_length.
Qed.

Lemma stored_field_lengths_witness :
  exists title last ai,
    fst (chat Sample.up Sample.long) = Ok {| response := ai; response_chat_id := lit "c1" |}
    /\ chat_metadata Sample.long (lit "Hello! How can I help?") !! lit "title"
         = Some (VStr title)
    /\ chat_metadata Sample.long (lit "Hello! How can I help?") !! lit "last_message"
         = Some (VStr last)
    /\ length title = 53%nat
    /\ length last = 22%nat.
Proof.
  destruct (stored_field_lengths Sample.up Sample.long (lit "u1") (lit "c1")
              (chat_metadata Sample.long (lit "Hello! How can I help?")) true)
    as (title & last & ai & Hreply & Ht & Hl & Hlt & Hll).
  - right. right. right. right. left. reflexivity.
  - exists title, last, ai. repeat split; try assumption.
    injection Hreply as <-. exact Hll.
Defined.

(** ** Calls to the provider *)

(** X8.  A request makes at most one exchange with one model: the
    provider calls of a run are none, or one vision call on the prompt,
    or [start_chat] alone, or [start_chat] followed by one
    [send_message] of the prompt.  The two models are never both
    called and no call is repeated. *)
Theorem chat_provider_calls_shape env request :
  List.filter provider_call (snd (chat env request)) = []
  \/ (exists image,
        List.filter provider_call (snd (chat env request))
          = [VisionGenerateContent (prompt request) (lit "image/jpeg") image])
  \/ (exists history,
        List.filter provider_call (snd (chat env request)) = [ModelStartChat history]
        \/ List.filter provider_call (snd (chat env request))
             = [ModelStartChat history; ChatSendMessage (prompt request)]).
Proof.
  destruct (chat_history request) as [msgs |] eqn:Hh.
  2: { left. now rewrite (chat_no_call_without_history env request Hh). }
  destruct (handles_cases env) as [[Hm Hv] | Hany].
  { left. now rewrite (chat_rejected env request Hm Hv). }
  rewrite (chat_provider_calls env request msgs Hany Hh).
  destruct (truthy_opt (screenshot request)) eqn:Hs.
  - unfold truthy_opt in Hs.
    destruct (screenshot request) as [s |] eqn:Hshot; [| discriminate].
    assert (Hne : s <> []) by (intros ->; discriminate).
    rewrite (generate_with_screenshot env request _ s Hshot Hne).
    destruct (vision_branch_provider_calls env request s)
      as [Hnone | (payload & image & _ & _ & Hcall)]; [now left |].
    right. left. now exists image.
  - rewrite (generate_without_screenshot env request _ Hs), text_branch_eq.
    destruct (model env) as [m |]; [| now left].
    right. right. exists (map history_turn msgs).
    destruct (start_chat m (map history_turn msgs)); [right | left]; reflexivity.
Qed.

(** ** A stored exchange *)

(** X9.  When the generation succeeds and the store accepts every
    call, the run is the generation followed by exactly the three
    writes (user message, assistant message, metadata), no storage
    error is logged, and the reply carries the generated text
    unchanged, also when the stored [last_message] is cut. *)
Theorem chat_exchange_stored env request fs msgs ai tg :
  chat_history request = Some msgs ->
  generate env request (map history_turn msgs) = (Ok ai, tg) ->
  db env = Some fs ->
  chat_document fs (user_id request) (resolve_chat_id env request) = Ok tt ->
  messages_add fs (user_id request) (resolve_chat_id env request)
    (user_message request) = Ok tt ->
  messages_add fs (user_id request) (resolve_chat_id env request)
    (assistant_message ai) = Ok tt ->
  chat_set fs (user_id request) (resolve_chat_id env request)
    (chat_metadata request ai) true = Ok tt ->
  chat env request
    = (Ok {| response := ai; response_chat_id := resolve_chat_id env request |},
       tg ++ exchange_writes request (resolve_chat_id env request) ai).
Proof.
  intros Hh Hg Hdb Hdoc Hadd1 Hadd2 Hset.
  rewrite (chat_checked env request (generate_ok_has_model _ _ _ _ _ Hg)).
  rewrite (chat_body_run env request msgs Hh), Hg.
  unfold store_exchange. rewrite Hdb.
  unfold store_writes, try_except, bind, lift, call.
  now rewrite Hdoc, Hadd1, Hadd2, Hset.
Qed.

Lemma chat_exchange_stored_witness :
  chat Sample.up Sample.hi
    = (Ok {| response := lit "Hello! How can I help?";
             response_chat_id := lit "chat_1700000000" |},
       [ModelStartChat []; ChatSendMessage (lit "Hi")]
       ++ exchange_writes Sample.hi (lit "chat_1700000000") (lit "Hello! How can I help?")).
Proof.
  exact (chat_exchange_stored Sample.up Sample.hi Sample.store []
           (lit "Hello! How can I help?")
           [ModelStartChat []; ChatSendMessage (lit "Hi")]
           eq_refl eq_refl eq_refl eq_refl eq_refl eq_refl eq_refl).
Defined.

(** ** What the handler reads of a request *)

Lemma history_turn_same a b : same_turn a b -> history_turn a = history_turn b.
Proof. intros [Hr Hc]. unfold history_turn. now rewrite Hr, Hc. Qed.

Lemma map_history_turn_same h h' :
  Forall2 same_turn h h' -> map history_turn h = map history_turn h'.
Proof.
  induction 1 as [| a b h h' Hab _ IH]; [reflexivity |].
  cbn [map]. now rewrite (history_turn_same a b Hab), IH.
Qed.

(** X10.  Of each history entry only [role] and [content] are read:
    two requests that differ only in other keys of their history
    entries get the same reply and make the same calls. *)
Theorem chat_reads_role_and_content env request h h' :
  Forall2 same_turn h h' ->
  chat env (set_history request (Some h)) = chat env (set_history request (Some h')).
Proof.
  intros Hsame. unfold chat.
  destruct (is_none (model env) && is_none (vision_model env)); [reflexivity |].
  rewrite (chat_body_run env (set_history request (Some h)) h eq_refl).
  rewrite (chat_body_run env (set_history request (Some h')) h' eq_refl).
  rewrite (map_history_turn_same h h' Hsame). reflexivity.
Qed.

Lemma chat_reads_role_and_content_witness :
  chat Sample.up
    (set_history Sample.hi
       (Some [ <[lit "role" := VStr (lit "user")]> (<[lit "content" := VStr (lit "Hi")]> ∅) ]))
  = chat Sample.up
      (set_history Sample.hi
         (Some [ <[lit "role" := VStr (lit "user")]>
                   (<[lit "content" := VStr (lit "Hi")]>
                   (<[lit "sent_at" := VInt 1700000000]> ∅)) ])).
Proof.
  apply (chat_reads_role_and_content Sample.up Sample.hi).
  constructor; [split; reflexivity | constructor].
Defined.

(** X11.  The chat id of a reply is never empty: an empty or absent
    [chat_id] is replaced by a generated one, which begins with
    ["chat_"]. *)
Theorem reply_chat_id_not_empty env request r t :
  chat env request = (Ok r, t) -> response_chat_id r <> [].
Proof.
  intros Hrun.
  destruct (chat_ok_inv env request r t Hrun) as (msgs & ai & tg & _ & _ & ->).
  cbn [response_chat_id]. unfold resolve_chat_id, new_chat_id.
  destruct (chat_id request) as [[| x c] |]; discriminate.
Qed.

Lemma reply_chat_id_not_empty_witness :
  lit "chat_1700000000" <> [].
Proof.
  exact (reply_chat_id_not_empty Sample.up
           {| prompt := lit "Hi"; user_id := lit "u1"; chat_id := Some (lit "");
              screenshot := None; chat_history := Some [] |}
           {| response := lit "Hello! How can I help?";
              response_chat_id := lit "chat_1700000000" |}
           _ eq_refl).
Defined.

(** ** More on the screenshot payload *)

Lemma after_comma_none s : contains_char comma s = false -> after_comma s = None.
Proof.
  rewrite contains_comma. now destruct (after_comma s).
Qed.

Lemma after_comma_app p r :
  after_comma p = None -> after_comma (p ++ comma :: r) = Some r.
Proof.
  induction p as [| x p IH]; cbn [app after_comma]; [reflexivity |].
  destruct (N.eqb x comma); [discriminate | exact IH].
Qed.

Lemma before_comma_app b r :
  after_comma b = None -> before_comma (b ++ comma :: r) = b.
Proof.
  induction b as [| x b IH]; cbn [app before_comma after_comma]; [reflexivity |].
  destruct (N.eqb x comma); [discriminate |]. intros H. now rewrite IH.
Qed.

(** X12.  What is decoded of a screenshot: the whole field when it has
    no comma; everything after the comma when it has one; and, when it
    has more, only the text between the first and the second comma,
    the rest being dropped.  The extraction itself never raises. *)
Theorem screenshot_payload_segment p b rest :
  contains_char comma p = false ->
  contains_char comma b = false ->
  screenshot_payload p = Ok p
  /\ screenshot_payload (p ++ comma :: b) = Ok b
  /\ screenshot_payload (p ++ comma :: b ++ comma :: rest) = Ok b.
Proof.
  intros Hp Hb. apply after_comma_none in Hp. apply after_comma_none in Hb.
  rewrite !screenshot_payload_eq, Hp, !(after_comma_app p _ Hp).
  now rewrite (before_comma_id b Hb), (before_comma_app b rest Hb).
Qed.

Lemma screenshot_payload_segment_witness :
  screenshot_payload (lit "aGk=") = Ok (lit "aGk=")
  /\ screenshot_payload (lit "data:image/png;base64,aGk=") = Ok (lit "aGk=")
  /\ screenshot_payload (lit "data:image/png;base64,aGk=,AAAA") = Ok (lit "aGk=").
Proof.
  destruct (screenshot_payload_segment (lit "data:image/png;base64") (lit "aGk=")
              (lit "AAAA") eq_refl eq_refl) as (_ & Hone & Htwo).
  destruct (screenshot_payload_segment (lit "aGk=") [] [] eq_refl eq_refl)
    as (Hnone & _ & _).
  split; [exact Hnone |]. split; [exact Hone | exact Htwo].
Defined.

(** ** Start-up and the first request *)

(** X13.  After start-up either both Gemini handles are set or neither
    is, so a request with a list history is either rejected by the
    availability check or reaches its provider: the only other way it
    can end without a provider call is a screenshot payload that does
    not decode.  No request fails on a missing handle. *)
Theorem chat_after_start_up configure make env request msgs :
  (model env, vision_model env) = init_gemini configure make ->
  chat_history request = Some msgs ->
  chat env request = (Raise models_not_initialized, [])
  \/ List.filter provider_call (snd (chat env request)) <> []
  \/ (exists s payload e,
        screenshot request = Some s /\ s <> []
        /\ screenshot_payload s = Ok payload
        /\ b64decode env payload = Raise e).
Proof.
  intros Hinit Hh. symmetry in Hinit.
  pose proof (init_gemini_both_or_neither _ _ _ _ Hinit) as Hboth.
  destruct (model env) as [m |] eqn:Hm, (vision_model env) as [v |] eqn:Hv;
    try (exfalso; destruct Hboth as [H1 H2];
         first [now specialize (H1 eq_refl) | now specialize (H2 eq_refl)]).
  2: { left. now apply chat_rejected. }
  right.
  rewrite (chat_provider_calls env request msgs) by (try (left; rewrite Hm; discriminate); exact Hh).
  destruct (truthy_opt (screenshot request)) eqn:Hs.
  - unfold truthy_opt in Hs.
    destruct (screenshot request) as [s |] eqn:Hshot; [| discriminate].
    assert (Hne : s <> []) by (intros ->; discriminate).
    rewrite (generate_with_screenshot env request _ s Hshot Hne), vision_branch_eq, Hv.
    destruct (screenshot_payload s) as [payload | e] eqn:Hp;
      [| rewrite screenshot_payload_eq in Hp; discriminate Hp].
    destruct (b64decode env payload) as [image | e] eqn:Hd.
    + left. unfold vision_failed.
      destruct (generate_content v _ _ _); discriminate.
    + right. now exists s, payload, e.
  - left. rewrite (generate_without_screenshot env request _ Hs), text_branch_eq, Hm.
    destruct (start_chat m (map history_turn msgs)); discriminate.
Qed.

Lemma chat_after_start_up_witness :
  chat Sample.up Sample.hi = (Raise models_not_initialized, [])
  \/ List.filter provider_call (snd (chat Sample.up Sample.hi)) <> []
  \/ (exists s payload e,
        screenshot Sample.hi = Some s /\ s <> []
        /\ screenshot_payload s = Ok payload
        /\ b64decode Sample.up payload = Raise e).
Proof.
  exact (chat_after_start_up (Ok tt) (fun _ => Ok Sample.gemini)
           Sample.up Sample.hi [] eq_refl eq_refl).
Defined.

(** ** Listing the chats of a user *)

Lemma collect_chats_eq chats acc :
  collect_chats chats acc = acc ++ map chat_entry chats.
Proof.
  revert acc. induction chats as [| chat rest IH]; intros acc; cbn.
  - now rewrite app_nil_r.
  - now rewrite IH, <- app_assoc.
Qed.

Lemma get_chats_ok env fs chats_stream uid :
  db env = Some fs -> snd (chats_stream uid) = None ->
  get_chats env chats_stream uid = Ok (map chat_entry (fst (chats_stream uid))).
Proof.
  intros Hdb Hend. unfold get_chats. now rewrite Hdb, Hend, collect_chats_eq.
Qed.

Lemma chat_entry_fields chat :
  chat_entry chat !! lit "id" = Some (VStr (snap_id chat))
  /\ (forall k, k <> lit "id" -> chat_entry chat !! k = to_dict chat !! k).
Proof.
  unfold chat_entry. split; [apply lookup_insert_eq |].
  intros k Hk. now apply lookup_insert_ne.
Qed.

(** X14.  With a store client and a query that completes, the listing
    has one entry per chat, in the order of the query; entry [i] holds
    every field of chat [i] as stored, except that its [id] is the
    identifier of the document, also when the document stores a field
    named [id] of its own. *)
Theorem get_chats_listing env fs chats_stream uid :
  db env = Some fs -> snd (chats_stream uid) = None ->
  exists listing,
    get_chats env chats_stream uid = Ok listing
    /\ length listing = length (fst (chats_stream uid))
    /\ (forall i chat,
          fst (chats_stream uid) !! i = Some chat ->
          exists entry,
            listing !! i = Some entry
            /\ entry !! lit "id" = Some (VStr (snap_id chat))
            /\ (forall k, k <> lit "id" -> entry !! k = to_dict chat !! k)).
Proof.
  intros Hdb Hend. exists (map chat_entry (fst (chats_stream uid))).
  split; [now apply (get_chats_ok env fs) |]. split; [apply length_map |].
  intros i chat Hi. exists (chat_entry chat). split.
  - change (map chat_entry (fst (chats_stream uid)))
      with (chat_entry <$> fst (chats_stream uid)).
    now rewrite list_lookup_fmap, Hi.
  - apply chat_entry_fields.
Qed.

Lemma get_chats_listing_witness :
  exists listing,
    get_chats Sample.up Demo.chats_stream (lit "u1") = Ok listing
    /\ length listing = 2%nat
    /\ (exists entry,
          listing !! 1%nat = Some entry
          /\ entry !! lit "id" = Some (VStr (lit "c1"))
          /\ (forall k, k <> lit "id" ->
                entry !! k
                = (<[lit "id" := VStr (lit "legacy")]>
                     (to_dict (Demo.chat_doc "c1" "Hi" 1700000000))) !! k)).
Proof.
  destruct (get_chats_listing Sample.up Sample.store Demo.chats_stream (lit "u1")
              eq_refl eq_refl) as (listing & Hrun & Hlen & Hentries).
  exists listing. split; [exact Hrun |]. split; [exact Hlen |].
  exact (Hentries 1%nat _ eq_refl).
Defined.

(** X15.  The listing keeps the order of the query on [updated_at]:
    when the query yields the chats newest first, so does the
    handler. *)
Theorem get_chats_newest_first env fs chats_stream uid listing :
  db env = Some fs ->
  get_chats env chats_stream uid = Ok listing ->
  newest_first (map to_dict (fst (chats_stream uid))) ->
  newest_first listing.
Proof.
  intros Hdb Hrun Hsorted. unfold get_chats in Hrun. rewrite Hdb in Hrun.
  destruct (snd (chats_stream uid)); [discriminate |].
  injection Hrun as <-. rewrite collect_chats_eq. cbn [app].
  intros i j a b ta tb Hij Ha Hb Hta Htb.
  change (map chat_entry (fst (chats_stream uid)))
    with (chat_entry <$> fst (chats_stream uid)) in Ha, Hb.
  rewrite list_lookup_fmap in Ha, Hb.
  destruct (fst (chats_stream uid) !! i) as [ca |] eqn:Hca; [| discriminate].
  destruct (fst (chats_stream uid) !! j) as [cb |] eqn:Hcb; [| discriminate].
  injection Ha as <-. injection Hb as <-.
  assert (Hkey : lit "updated_at" <> lit "id") by discriminate.
  rewrite (proj2 (chat_entry_fields ca) _ Hkey) in Hta.
  rewrite (proj2 (chat_entry_fields cb) _ Hkey) in Htb.
  apply (Hsorted i j (to_dict ca) (to_dict cb) ta tb Hij); try assumption.
  - change (map to_dict (fst (chats_stream uid)))
      with (to_dict <$> fst (chats_stream uid)).
    now rewrite list_lookup_fmap, Hca.
  - change (map to_dict (fst (chats_stream uid)))
      with (to_dict <$> fst (chats_stream uid)).
    now rewrite list_lookup_fmap, Hcb.
Qed.

Lemma demo_chats_newest_first :
  newest_first (map to_dict (fst (Demo.chats_stream (lit "u1")))).
Proof.
  intros i j a b ta tb Hij Ha Hb Hta Htb.
  destruct i as [| [| i]], j as [| [| j]]; cbn in Ha, Hb; try discriminate; try lia;
    injection Ha as <-; injection Hb as <-;
    vm_compute in Hta, Htb; injection Hta as <-; injection Htb as <-; lia.
Qed.

Lemma get_chats_newest_first_witness :
  exists listing,
    get_chats Sample.up Demo.chats_stream (lit "u1") = Ok listing
    /\ newest_first listing.
Proof.
  exists (map chat_entry (fst (Demo.chats_stream (lit "u1")))).
  split; [reflexivity |].
  exact (get_chats_newest_first Sample.up Sample.store Demo.chats_stream (lit "u1") _
           eq_refl eq_refl demo_chats_newest_first).
Defined.

(** ** The read handlers when something is missing or fails *)

(** X16.  Without a store client both read handlers answer 500 with
    the detail ["Database not initialized"], and the message handler
    issues no query.  With one, a query that yields nothing and ends
    normally is answered with an empty list, not with an error. *)
Theorem read_handlers_edge_cases env chats_stream uid cid :
  (db env = None ->
     get_chats env chats_stream uid
       = Raise (HTTPException 500 (lit "Database not initialized"))
     /\ get_chat_messages env uid cid
        = (Raise (HTTPException 500 (lit "Database not initialized")), []))
  /\ (forall fs,
        db env = Some fs ->
        (chats_stream uid = ([], None) -> get_chats env chats_stream uid = Ok [])
        /\ (messages_stream fs uid cid = ([], None) ->
            get_chat_messages env uid cid
              = (Ok [], [MessagesStream uid cid (lit "timestamp")]))).
Proof.
  split.
  - intros Hdb. split; [| now apply get_chat_messages_unset].
    unfold get_chats. now rewrite Hdb.
  - intros fs Hdb. split.
    + intros Hs. unfold get_chats. now rewrite Hdb, Hs.
    + intros Hs. unfold get_chat_messages. now rewrite Hdb, Hs.
Qed.

Lemma read_handlers_edge_cases_witness :
  get_chats (Sample.env (Some Sample.gemini) None None (Qmake 3 2))
    Demo.chats_stream (lit "u1")
    = Raise (HTTPException 500 (lit "Database not initialized"))
  /\ get_chat_messages
       (Sample.env (Some Sample.gemini) None (Some Sample.broken_store) (Qmake 3 2))
       (lit "u1") (lit "nowhere")
     = (Ok [], [MessagesStream (lit "u1") (lit "nowhere") (lit "timestamp")]).
Proof.
  split.
  - apply (proj1 (read_handlers_edge_cases
                    (Sample.env (Some Sample.gemini) None None (Qmake 3 2))
                    Demo.chats_stream (lit "u1") (lit "c1"))).
    reflexivity.
  - apply (proj2 (read_handlers_edge_cases
                    (Sample.env (Some Sample.gemini) None (Some Sample.broken_store)
                       (Qmake 3 2))
                    Demo.chats_stream (lit "u1") (lit "nowhere")) Sample.broken_store);
      reflexivity.
Defined.

(** X17.  A query that raises [e] part-way is answered with a 500 whose
    detail is ["An error occurred: "] followed by [str(e)]: the
    entries read so far are not returned.  For the message handler this
    holds when no message read so far has a timestamp. *)
Theorem read_handlers_query_failure env fs chats_stream uid cid e :
  db env = Some fs ->
  (snd (chats_stream uid) = Some e ->
     get_chats env chats_stream uid
       = Raise (HTTPException 500 (lit "An error occurred: " ++ str_exn env e)))
  /\ (snd (messages_stream fs uid cid) = Some e ->
      existsb has_timestamp (fst (messages_stream fs uid cid)) = false ->
      get_chat_messages env uid cid
        = (Raise (HTTPException 500 (lit "An error occurred: " ++ str_exn env e)),
           [MessagesStream uid cid (lit "timestamp")])).
Proof.
  intros Hdb. split.
  - intros He. unfold get_chats. now rewrite Hdb, He.
  - intros He Hts. unfold get_chat_messages. rewrite Hdb.
    unfold try_except, bind, call, raise.
    now rewrite (collect_messages_plain env _ [] Hts), He.
Qed.

Lemma read_handlers_query_failure_witness :
  get_chats Sample.up
    (fun _ => ([Demo.chat_doc "c2" "Trip" 1700000500],
               Some (PyError "DeadlineExceeded" (lit "504 Deadline Exceeded"))))
    (lit "u1")
  = Raise (HTTPException 500 (lit "An error occurred: 504 Deadline Exceeded")).
Proof.
  apply (proj1 (read_handlers_query_failure Sample.up Sample.store
                  (fun _ => ([Demo.chat_doc "c2" "Trip" 1700000500],
                             Some (PyError "DeadlineExceeded" (lit "504 Deadline Exceeded"))))
                  (lit "u1") (lit "c1")
                  (PyError "DeadlineExceeded" (lit "504 Deadline Exceeded")) eq_refl)).
  reflexivity.
Defined.

(** X18.  Messages whose [timestamp] is absent or falsy are read back:
    one entry per message in the order of the query, each holding the
    stored fields, the timestamp untouched, and the identifier of the
    document under [id]. *)
Theorem get_chat_messages_undated env fs uid cid :
  db env = Some fs ->
  snd (messages_stream fs uid cid) = None ->
  existsb has_timestamp (fst (messages_stream fs uid cid)) = false ->
  exists listing,
    get_chat_messages env uid cid
      = (Ok listing, [MessagesStream uid cid (lit "timestamp")])
    /\ length listing = length (fst (messages_stream fs uid cid))
    /\ (forall i message,
          fst (messages_stream fs uid cid) !! i = Some message ->
          exists entry,
            listing !! i = Some entry
            /\ entry !! lit "id" = Some (VStr (snap_id message))
            /\ (forall k, k <> lit "id" -> entry !! k = to_dict message !! k)).
Proof.
  intros Hdb Hnone Hts.
  eexists. split; [exact (get_chat_messages_plain env fs uid cid Hdb Hts Hnone) |].
  split; [apply length_map |].
  intros i message Hi. eexists. split.
  - match goal with |- map ?f ?l !! _ = _ => change (map f l) with (f <$> l) end.
    rewrite list_lookup_fmap, Hi. reflexivity.
  - split; [apply lookup_insert_eq |].
    intros k Hk. now apply lookup_insert_ne.
Qed.

Lemma get_chat_messages_undated_witness :
  exists listing,
    get_chat_messages Demo.undated_env (lit "u1") (lit "c1")
      = (Ok listing, [MessagesStream (lit "u1") (lit "c1") (lit "timestamp")])
    /\ length listing = 2%nat.
Proof.
  destruct (get_chat_messages_undated Demo.undated_env Demo.undated_store
              (lit "u1") (lit "c1") eq_refl eq_refl eq_refl)
    as (listing & Hrun & Hlen & _).
  exists listing. split; [exact Hrun | exact Hlen].
Defined.

(** ** The private key of the service account *)

Lemma unescape_head y r z t :
  unescape_newlines (y :: r) = z :: t -> z = y \/ z = newline.
Proof.
  cbn [unescape_newlines]. destruct r as [| y' r'].
  - intros H. injection H as <- _. now left.
  - destruct (N.eqb y backslash && N.eqb y' letter_n); intros H;
      injection H as <- _; auto.
Qed.

Lemma has_escape_cons x t :
  has_escape (x :: t)
    = match t with
      | z :: _ => (N.eqb x backslash && N.eqb z letter_n) || has_escape t
      | [] => false
      end.
Proof. reflexivity. Qed.

Lemma unescape_cons2 x y r :
  unescape_newlines (x :: y :: r)
    = if N.eqb x backslash && N.eqb y letter_n
      then newline :: unescape_newlines r
      else x :: unescape_newlines (y :: r).
Proof. reflexivity. Qed.

Lemma unescape_no_escape_upto n s :
  (length s <= n)%nat -> has_escape (unescape_newlines s) = false.
Proof.
  revert s. induction n as [| n IH]; intros s Hlen.
  - destruct s; [reflexivity | simpl in Hlen; lia].
  - destruct s as [| x [| y r']]; [reflexivity | reflexivity |].
    rewrite unescape_cons2.
    destruct (N.eqb x backslash && N.eqb y letter_n) eqn:Hxy.
    + rewrite has_escape_cons.
      assert (Hr : has_escape (unescape_newlines r') = false)
        by (apply IH; simpl in Hlen; lia).
      destruct (unescape_newlines r'); [reflexivity |]. now rewrite Hr.
    + rewrite has_escape_cons.
      assert (Hr : has_escape (unescape_newlines (y :: r')) = false)
        by (apply IH; simpl in Hlen |- *; lia).
      destruct (unescape_newlines (y :: r')) as [| z t] eqn:Hu; [reflexivity |].
      rewrite Hr, orb_false_r.
      destruct (unescape_head y r' z t Hu) as [-> | ->]; [exact Hxy |].
      apply andb_false_r.
Qed.

Lemma unescape_no_escape s : has_escape (unescape_newlines s) = false.
Proof. now apply (unescape_no_escape_upto (length s)). Qed.

Lemma has_escape_tail x r : has_escape (x :: r) = false -> has_escape r = false.
Proof.
  rewrite has_escape_cons. destruct r; [reflexivity |].
  intros H. now apply orb_false_iff in H.
Qed.

Lemma unescape_clean s : has_escape s = false -> unescape_newlines s = s.
Proof.
  induction s as [| x r IH]; [reflexivity |]. intros H.
  pose proof (has_escape_tail x r H) as Hr.
  destruct r as [| y r']; [reflexivity |].
  rewrite has_escape_cons in H. apply orb_false_iff in H as [Hxy _].
  rewrite unescape_cons2, Hxy. now rewrite (IH Hr).
Qed.

Lemma escape_head y r z t :
  escape_newlines (y :: r) = z :: t -> z = letter_n -> y = letter_n.
Proof.
  cbn [escape_newlines]. destruct (N.eqb y newline); intros H Hz;
    injection H as Hh _.
  - rewrite Hz in Hh. discriminate Hh.
  - now rewrite Hh.
Qed.

Lemma unescape_escape s : has_escape s = false -> unescape_newlines (escape_newlines s) = s.
Proof.
  induction s as [| x r IH]; [reflexivity |]. intros H.
  pose proof (has_escape_tail x r H) as Hr. specialize (IH Hr).
  cbn [escape_newlines]. destruct (N.eqb_spec x newline) as [-> | Hx].
  - rewrite unescape_cons2, !N.eqb_refl. cbn [andb]. now rewrite IH.
  - destruct (escape_newlines r) as [| z t] eqn:He.
    + destruct r as [| y r']; [reflexivity |].
      cbn [escape_newlines] in He. destruct (N.eqb y newline); discriminate He.
    + rewrite unescape_cons2.
      destruct (N.eqb x backslash && N.eqb z letter_n) eqn:Hxz; [| now rewrite IH].
      exfalso. apply andb_true_iff in Hxz as [Hxb Hzn].
      apply N.eqb_eq in Hzn.
      destruct r as [| y r']; [discriminate He |].
      pose proof (escape_head y r' z t He Hzn) as ->.
      rewrite has_escape_cons, Hxb, N.eqb_refl in H. discriminate H.
Qed.

Lemma credentials_private_key environ :
  firebase_credentials environ !! lit "private_key"
    = Some (VStr (unescape_newlines (environ_get_str environ "FIREBASE_PRIVATE_KEY"))).
Proof. reflexivity. Qed.

(** X19.  Whatever the environment holds, the [private_key] of the
    credential bundle contains no backslash followed by [n]: every such
    pair has become a newline.  An unset variable gives the empty key,
    and a value without such a pair is passed on as it is. *)
Theorem credentials_private_key_unescaped environ :
  exists key,
    firebase_credentials environ !! lit "private_key" = Some (VStr key)
    /\ has_escape key = false
    /\ (environ !! lit "FIREBASE_PRIVATE_KEY" = None -> key = [])
    /\ (forall v,
          environ !! lit "FIREBASE_PRIVATE_KEY" = Some v ->
          has_escape v = false -> key = v).
Proof.
  eexists. split; [apply credentials_private_key |].
  split; [apply unescape_no_escape |]. unfold environ_get_str. split.
  - now intros ->.
  - intros v -> Hv. now apply unescape_clean.
Qed.

(** X20.  A key written on one line of the environment file, each
    newline as a backslash followed by [n], is restored: the bundle
    carries the original key, provided the key itself contains no
    backslash followed by [n]. *)
Theorem credentials_private_key_round_trip environ pem :
  has_escape pem = false ->
  environ !! lit "FIREBASE_PRIVATE_KEY" = Some (escape_newlines pem) ->
  firebase_credentials environ !! lit "private_key" = Some (VStr pem).
Proof.
  intros Hpem Henv. rewrite credentials_private_key.
  unfold environ_get_str. rewrite Henv.
  change (default (lit "") (Some (escape_newlines pem))) with (escape_newlines pem).
  now rewrite unescape_escape.
Qed.

Lemma credentials_private_key_round_trip_witness :
  firebase_credentials
    (<[lit "FIREBASE_PRIVATE_KEY" :=
         lit "-----BEGIN-----\nMIIB\n-----END-----"]> ∅)
    !! lit "private_key"
  = Some (VStr Demo.pem).
Proof.
  apply (credentials_private_key_round_trip _ Demo.pem); reflexivity.
Defined.

(** X21.  The credential bundle always has the same ten fields,
    whatever the environment holds.  A variable that is not set gives
    the empty string, except [FIREBASE_PROJECT_ID], which has no
    default and gives [None]. *)
Theorem credentials_bundle_fields environ :
  (forall k,
     is_Some (firebase_credentials environ !! k)
     <-> In k (map lit
           [ "type"; "project_id"; "private_key_id"; "private_key"; "client_email";
             "client_id"; "auth_uri"; "token_uri"; "auth_provider_x509_cert_url";
             "client_x509_cert_url" ]%string))
  /\ (environ !! lit "FIREBASE_PROJECT_ID" = None ->
      firebase_credentials environ !! lit "project_id" = Some VNone)
  /\ (environ !! lit "FIREBASE_PRIVATE_KEY_ID" = None ->
      firebase_credentials environ !! lit "private_key_id" = Some (VStr []))
  /\ (environ !! lit "FIREBASE_CLIENT_EMAIL" = None ->
      firebase_credentials environ !! lit "client_email" = Some (VStr []))
  /\ (environ !! lit "FIREBASE_CLIENT_ID" = None ->
      firebase_credentials environ !! lit "client_id" = Some (VStr []))
  /\ (environ !! lit "FIREBASE_CLIENT_CERT_URL" = None ->
      firebase_credentials environ !! lit "client_x509_cert_url" = Some (VStr [])).
Proof.
  split.
  - intros k. split.
    + unfold firebase_credentials. intros H.
      repeat (apply lookup_insert_is_Some in H as [<- | [_ H]]; [cbn; tauto |]).
      rewrite lookup_empty in H. now apply is_Some_None in H.
    + cbn [map In]. intros H.
      repeat (destruct H as [<- | H]; [eexists; reflexivity |]). contradiction.
  - repeat split; intros Hnone;
      match goal with
      | |- firebase_credentials _ !! ?k = Some ?v =>
          change (firebase_credentials environ !! k) with (Some v) ||
          (unfold firebase_credentials;
           repeat (rewrite lookup_insert_ne by discriminate);
           rewrite lookup_insert_eq;
           unfold environ_get, environ_get_str; now rewrite Hnone)
      end.
Qed.

Lemma credentials_bundle_fields_witness :
  firebase_credentials ∅ !! lit "project_id" = Some VNone
  /\ firebase_credentials ∅ !! lit "client_email" = Some (VStr []).
Proof.
  destruct (credentials_bundle_fields ∅) as (_ & Hproject & _ & Hmail & _).
  split; [apply Hproject | apply Hmail]; reflexivity.
Defined.
